(** * ape-vyper: the version-independent compiler driver

    A shallow embedding of [BaseVyperCompiler]
    (src/ape_vyper/compiler/_versions/base.py) and the properties of its
    settings resolver, request builder, result reconciliation, AST
    classifier and developer-message scan.

    Modelling conventions.
    - Python [str] is [string] (a byte sequence); [str.lower] and
      [str.strip] act on the ASCII range only.
    - [pathlib.Path] is a record of a root marker and a list of parts, as
      [PurePosixPath] normalises it.
    - A [dict] whose iteration order drives control flow (the settings map,
      the compiler's [contracts] table) is an association list in insertion
      order; a [dict] that is only looked up (sources, output selection,
      interfaces, line tables) is a [gmap]; a Python [set] is a [gset].
    - The file system, the external compiler and the helpers imported from
      modules outside base.py are Section variables.
    - A generator is the trace it produces: the values yielded, the compiler
      requests sent, and the exception that ended it, if any.
    - Validation by the pydantic models ([ASTNode], [Content],
      [ContractType]) always succeeds, the call that logs the compiler
      details has no effect, and [source_paths] can be iterated again. *)

From Stdlib Require Import String Ascii ZArith List Bool.
From stdpp Require Import gmap strings list fin_maps.

Local Open Scope string_scope.

(** ** Strings *)

Module Str.

(** [c in string.ascii_uppercase]. *)
Definition is_upper (c : ascii) : bool :=
  let n := nat_of_ascii c in (65 <=? n)%nat && (n <=? 90)%nat.

Definition lower_ascii (c : ascii) : ascii :=
  if is_upper c then ascii_of_nat (nat_of_ascii c + 32) else c.

(** [s.lower()]. *)
Fixpoint lower (s : string) : string :=
  match s with
  | EmptyString => EmptyString
  | String c r => String (lower_ascii c) (lower r)
  end.

(** [s.startswith(p)]. *)
Fixpoint startswith (p s : string) : bool :=
  match p, s with
  | EmptyString, _ => true
  | String a p', String b s' => if Ascii.eqb a b then startswith p' s' else false
  | String _ _, EmptyString => false
  end.

(** [needle in hay]. *)
Fixpoint contains (needle hay : string) : bool :=
  startswith needle hay ||
  match hay with
  | EmptyString => false
  | String _ r => contains needle r
  end.

(** [s.split(sep)] for a one-character separator: never empty, and the
    empty string splits to one empty field. *)
Fixpoint split (sep : ascii) (s : string) : list string :=
  match s with
  | EmptyString => [EmptyString]
  | String c r =>
      if Ascii.eqb c sep then EmptyString :: split sep r
      else match split sep r with
           | f :: fs => String c f :: fs
           | [] => [String c EmptyString]
           end
  end.

(** [c.isspace()] on ASCII: tab, LF, VT, FF, CR, FS, GS, RS, US, space. *)
Definition is_space (c : ascii) : bool :=
  let n := nat_of_ascii c in
  ((9 <=? n)%nat && (n <=? 13)%nat) || ((28 <=? n)%nat && (n <=? 32)%nat).

Fixpoint lstrip (s : string) : string :=
  match s with
  | String c r => if is_space c then lstrip r else s
  | EmptyString => EmptyString
  end.

Fixpoint rstrip (s : string) : string :=
  match s with
  | EmptyString => EmptyString
  | String c r =>
      match rstrip r with
      | EmptyString => if is_space c then EmptyString else String c EmptyString
      | r' => String c r'
      end
  end.

(** [s.strip()]. *)
Definition strip (s : string) : string := rstrip (lstrip s).

(** The truth value of a string: non-empty. *)
Definition truthy (s : string) : bool :=
  match s with EmptyString => false | _ => true end.

(** [sep.join(fields)], to state what [split] does. *)
Fixpoint join (sep : ascii) (fields : list string) : string :=
  match fields with
  | [] => EmptyString
  | [f] => f
  | f :: rest => f +:+ String sep (join sep rest)
  end.


End Str.

(** ** Paths *)

(** The root of a POSIX path: none, ["/"], or the ["//"] that POSIX lets an
    implementation treat specially and that pathlib keeps apart. *)
Inductive Root := Relative | Slash | DoubleSlash.

Record Path := mkPath { root : Root; parts : list string }.

Global Instance Root_eq_dec : EqDecision Root.
Proof. solve_decision. Defined.

Global Instance Path_eq_dec : EqDecision Path.
Proof. solve_decision. Defined.

Module Pathlib.

(** The components of a path string: fields between slashes, with empty
    fields and ["."] dropped. *)
Definition components (s : string) : list string :=
  List.filter (fun f => negb (String.eqb f "" || String.eqb f "."))
              (Str.split "/" s).

Definition root_of (s : string) : Root :=
  if Str.startswith "///" s then Slash
  else if Str.startswith "//" s then DoubleSlash
  else if Str.startswith "/" s then Slash
  else Relative.

(** [Path(s)]. *)
Definition of_string (s : string) : Path :=
  mkPath (root_of s) (components s).

(** [p.is_absolute()]. *)
Definition is_absolute (p : Path) : bool :=
  match root p with Relative => false | _ => true end.

(** [p / q]: an absolute right operand replaces the left one. *)
Definition concat (p q : Path) : Path :=
  if is_absolute q then q else mkPath (root p) (parts p ++ parts q).

(** [p / s] for a string [s]. *)
Definition join (p : Path) (s : string) : Path := concat p (of_string s).

(** [p.absolute()] in the working directory [cwd]. *)
Definition absolute (cwd p : Path) : Path := concat cwd p.

Fixpoint join_parts (l : list string) : string :=
  match l with
  | [] => ""
  | [x] => x
  | x :: r => x +:+ "/" +:+ join_parts r
  end.

(** [str(p)]. *)
Definition to_string (p : Path) : string :=
  match root p, parts p with
  | Relative, [] => "."
  | Relative, l => join_parts l
  | Slash, l => "/" +:+ join_parts l
  | DoubleSlash, l => "//" +:+ join_parts l
  end.

(** [p.parent]: the path without its last part; a bare root or the empty
    path is its own parent. *)
Definition parent (p : Path) : Path :=
  mkPath (root p) (removelast (parts p)).


End Pathlib.

Notation "p // s" := (Pathlib.join p s) (at level 40, left associativity).


(** ** Ordered dictionaries

    A Python [dict] iterated in insertion order: assigning to a present key
    keeps its position, assigning to a new key appends. *)

Module Dict.

Fixpoint get {V} (k : string) (d : list (string * V)) : option V :=
  match d with
  | [] => None
  | (k', v) :: r => if String.eqb k k' then Some v else get k r
  end.

Fixpoint set {V} (k : string) (v : V) (d : list (string * V)) : list (string * V) :=
  match d with
  | [] => [(k, v)]
  | (k', v') :: r => if String.eqb k k' then (k, v) :: r else (k', v') :: set k v r
  end.

Definition keys {V} (d : list (string * V)) : list string := map fst d.

End Dict.

(** ** Syntax trees (ethpm_types.ASTNode) *)

Inductive ASTClassification := UNCLASSIFIED | FUNCTION.

(** [line_numbers] is (lineno, col_offset, end_lineno, end_coloffset). The
    induction principle for this nested type is [ASTNode_ind'] below. *)
Local Unset Elimination Schemes.
Inductive ASTNode :=
  mkASTNode (ast_type : string) (classification : ASTClassification)
            (line_numbers : Z * Z * Z * Z) (children : list ASTNode).
Local Set Elimination Schemes.

Definition ast_type (n : ASTNode) : string :=
  match n with mkASTNode t _ _ _ => t end.
Definition classification (n : ASTNode) : ASTClassification :=
  match n with mkASTNode _ c _ _ => c end.
Definition line_numbers (n : ASTNode) : Z * Z * Z * Z :=
  match n with mkASTNode _ _ l _ => l end.
Definition children (n : ASTNode) : list ASTNode :=
  match n with mkASTNode _ _ _ ch => ch end.
Definition lineno (n : ASTNode) : Z := (line_numbers n).1.1.1.
Definition end_lineno (n : ASTNode) : Z := (line_numbers n).1.2.

(** Induction over a tree with the hypothesis for every child. *)
Fixpoint ASTNode_ind' (P : ASTNode → Prop)
    (step : ∀ t c l ch, Forall P ch → P (mkASTNode t c l ch))
    (n : ASTNode) : P n :=
  match n with
  | mkASTNode t c l ch =>
      step t c l ch
        ((fix all (ns : list ASTNode) : Forall P ns :=
            match ns with
            | [] => @List.Forall_nil _ P
            | x :: r => @List.Forall_cons _ P x r (ASTNode_ind' P step x) (all r)
            end) ch)
  end.

(** Every node of a tree, parent before children, children left to right. *)
Fixpoint subnodes (n : ASTNode) : list ASTNode :=
  match n with
  | mkASTNode _ _ _ ch => n :: flat_map subnodes ch
  end.

(** The tree with every classification reset: what is left is the shape,
    the type tags and the line spans. *)
Fixpoint unclassified (n : ASTNode) : ASTNode :=
  match n with
  | mkASTNode t _ l ch => mkASTNode t UNCLASSIFIED l (map unclassified ch)
  end.

(** ** Values exchanged with the compiler and the caller *)

(** [Optimization = Union[str, bool]]. *)
Inductive Optimization := OptBool (b : bool) | OptStr (s : string).

Definition Optimization_truthy (o : Optimization) : bool :=
  match o with OptBool b => b | OptStr s => Str.truthy s end.

(** [f"{optimization}"]. *)
Definition Optimization_str (o : Optimization) : string :=
  match o with
  | OptBool true => "True"
  | OptBool false => "False"
  | OptStr s => s
  end.

(** [f"{evm_version}"] for an [Optional[str]]. *)
Definition optional_str (o : option string) : string :=
  match o with Some s => s | None => "None" end.

Record Version := mkVersion { base_version : string }.

Inductive Exn :=
| VyperError (message : string)
| VyperCompileError (base_err : Exn)
| KeyError (key : string)
| ValueError
| FileNotFoundError.

(** An exception in flight, with its [__cause__]. *)
Record Raised := mkRaised { exn : Exn; cause : option Exn }.

Definition raise (e : Exn) : Raised := mkRaised e None.
Definition raise_from (e c : Exn) : Raised := mkRaised e (Some c).

(** One entry of the settings map built by [get_settings] and read by
    [compile]; [compile] tolerates a missing ["outputSelection"]. *)
Record SettingsSet := mkSettingsSet {
  optimize : Optimization;
  outputSelection : option (gmap string (list string));
  search_paths : list string;
  evmVersion : option string
}.

Record SourceJson := mkSourceJson { content : string }.

Record SourceMapItem := mkSourceMapItem {
  start : option Z; length_ : option Z; contract_id : option Z; jump_code : string
}.

(** JSON values that the driver passes through unread (ABI entries,
    [userdoc], [devdoc]). *)
Local Unset Elimination Schemes.
Inductive Json :=
| JNull
| JBool (b : bool)
| JNum (z : Z)
| JStr (s : string)
| JList (l : list Json)
| JObj (l : list (string * Json)).
Local Set Elimination Schemes.

(** One value of the ["interfaces"] table: [{"abi": [...]}]. *)
Record InterfaceJson := mkInterfaceJson { abi : list Json }.

(** The request sent to the compiler. *)
Record InputJson := mkInputJson {
  language : string;
  settings : SettingsSet;
  sources : gmap string SourceJson;
  interfaces : option (gmap string InterfaceJson)
}.

(** [output["evm"]["deployedBytecode"]]; a key that is absent is [None]. *)
Record RuntimeBytecodeJson := mkRuntimeBytecodeJson {
  object : option string;
  opcodes : option string;
  sourceMap : option string
}.

(** The dictionary [{}] that [evm.get("deployedBytecode", {})] falls back to. *)
Definition empty_bytecode : RuntimeBytecodeJson := mkRuntimeBytecodeJson None None None.

(** The truth value of the dictionary: it has a key. *)
Definition bytecode_truthy (b : RuntimeBytecodeJson) : bool :=
  bool_decide (is_Some (object b) ∨ is_Some (opcodes b) ∨ is_Some (sourceMap b)).

Record EvmJson := mkEvmJson {
  deployedBytecode : option RuntimeBytecodeJson;
  (* evm.get("bytecode", {}).get("object") *)
  bytecode_object : option string
}.

(** One contract of the compiler's answer. *)
Record OutputJson := mkOutputJson {
  evm : option EvmJson;
  out_abi : option Json;
  out_userdoc : option Json;
  out_devdoc : option Json
}.

(** [result["sources"][source_id]]. *)
Record SourceOutJson := mkSourceOutJson { ast : option ASTNode }.

(** The compiler's answer: [contracts] in the order the compiler gave them. *)
Record CompileResult := mkCompileResult {
  contracts : list (string * list (string * OutputJson));
  result_sources : gmap string SourceOutJson
}.

Record PCMapItem := mkPCMapItem { location : option (Z * Z * Z * Z); dev : option string }.

(** The artifact that [compile] yields. *)
Record ContractType := mkContractType {
  ct_ast : option ASTNode;
  contractName : string;
  sourceId : string;
  deploymentBytecode : option string;
  runtimeBytecode : option string;
  ct_abi : option Json;
  sourcemap : option string;
  pcmap : option (gmap Z PCMapItem);
  userdoc : option Json;
  devdoc : option Json;
  dev_messages : gmap Z string
}.

(** What running a generator produces: the values yielded, the requests
    sent to the compiler on the way, and the exception that ended it. *)
Record Trace := mkTrace {
  yielded : list (ContractType * string);
  requests : list InputJson;
  raised : option Raised
}.

Definition Trace_nil : Trace := mkTrace [] [] None.

(** Sequencing: the second part runs only when the first ended normally. *)
Definition Trace_then (t : Trace) (k : Trace) : Trace :=
  match raised t with
  | Some _ => t
  | None => mkTrace (yielded t ++ yielded k) (requests t ++ requests k) (raised k)
  end.

(** The methods that the per-version compilers may override; [compile] and
    [get_settings] reach them through [self]. *)
Record VyperCompiler := mkVyperCompiler {
  get_import_remapping : gmap string InterfaceJson;
  _get_sources_dictionary : gset string → Raised + gmap string SourceJson;
  _get_selection_dictionary : gset string → gmap string (list string);
  _get_pcmap : Version → option ASTNode → list SourceMapItem → list string →
               RuntimeBytecodeJson → gmap Z PCMapItem;
  _get_default_optimization : Version → Optimization
}.

(** ** The driver *)

Section Driver.

(** The project: its root, the working directory, its files (the text of
    every regular file), its configuration and its dependencies, each
    dependency with the contract types of its manifest (name and ABI, the
    ABI entries as [model_dump] renders them). *)
Variable pm_path : Path.
Variable cwd : Path.
Variable read_text : Path → option string.
Variable config_output_format : list string.
Variable config_evm_version : option string.
Variable dependencies : list (string * option (list (string * list Json))).

(** What base.py imports: the tables and helpers of [ape_vyper._utils],
    [ape.utils.get_relative_path], [site.getsitepackages], the line table
    of [ethpm_types.Content], [SourceMap.parse], and [re.search] with
    [DEV_MSG_PATTERN], which gives group 1 of a match. *)
Variable EVM_VERSION_DEFAULT : gmap string string.
Variable FUNCTION_AST_TYPES : list string.
Variable DEV_MSG_search : string → option string.
Variable get_optimization_pragma_map :
  list Path → Path → Optimization → gmap string Optimization.
Variable get_evm_version_pragma_map : list Path → Path → gmap string string.
Variable get_pcmap : RuntimeBytecodeJson → gmap Z PCMapItem.
Variable get_relative_path : Path → Path → Path.
Variable getsitepackages : list string.
Variable Content_validate : string → gmap Z string.
Variable SourceMap_parse : string → list SourceMapItem.

(** The external compiler: an answer, or the exception it raised. *)
Variable vvm_compile_standard : InputJson → Version → Path → Exn + CompileResult.

(** [os.path.sep]. *)
Definition sep : string := "/".

(** [p.is_file()]. *)
Definition is_file (p : Path) : bool := bool_decide (is_Some (read_text p)).

Definition get_output_format : list string :=
  match config_output_format with
  | [] => ["*"]
  | fmt => fmt
  end.

Definition get_evm_version (version : Version) : option string :=
  match config_evm_version with
  | Some v => if Str.truthy v then Some v
              else EVM_VERSION_DEFAULT !! base_version version
  | None => EVM_VERSION_DEFAULT !! base_version version
  end.

(** [BaseVyperCompiler.get_import_remapping]. *)
Definition base_get_import_remapping : gmap string InterfaceJson :=
  fold_left
    (fun interfaces '(key, contract_types) =>
       fold_left
         (fun interfaces '(name, abi_list) =>
            let filename := key +:+ "/" +:+ name +:+ ".json" in
            <[filename := mkInterfaceJson abi_list]> interfaces)
         (default [] contract_types) interfaces)
    dependencies ∅.

(** [BaseVyperCompiler._get_sources_dictionary]: the comprehension pairs
    every identifier with its path, drops the paths whose parent is the
    project's [interfaces] folder and reads the rest; a file that cannot
    be read ends the call with the error of [read_text]. *)
Definition base_get_sources_dictionary (source_ids : gset string)
  : Raised + gmap string SourceJson :=
  let paths : gmap string Path :=
    set_to_map (fun src_id => (src_id, pm_path // src_id)) source_ids in
  let kept : gmap string Path :=
    filter (fun sp => Pathlib.parent sp.2 ≠ pm_path // "interfaces") paths in
  if decide (map_Forall (fun _ p => is_Some (read_text p)) kept)
  then inr (omap (fun p => mkSourceJson <$> read_text p) kept)
  else inl (raise FileNotFoundError).

(** [BaseVyperCompiler._get_selection_dictionary]. *)
Definition base_get_selection_dictionary (selection : gset string)
  : gmap string (list string) :=
  gset_to_gmap get_output_format
    (filter (fun s => is_file (pm_path // s) = true
                      ∧ Str.contains "interfaces" s = false) selection).

(** [BaseVyperCompiler._get_pcmap]: only the bytecode is used. *)
Definition base_get_pcmap (vyper_version : Version) (ast : option ASTNode)
    (src_map : list SourceMapItem) (opcodes : list string)
    (bytecode : RuntimeBytecodeJson) : gmap Z PCMapItem :=
  get_pcmap bytecode.

(** [BaseVyperCompiler._get_default_optimization]. *)
Definition base_get_default_optimization (vyper_version : Version) : Optimization :=
  OptBool true.

Definition BaseVyperCompiler : VyperCompiler :=
  mkVyperCompiler base_get_import_remapping base_get_sources_dictionary
                  base_get_selection_dictionary base_get_pcmap
                  base_get_default_optimization.

(** [_classify_ast]: the in-place update of [classification], as the tree
    it leaves behind. *)
Fixpoint _classify_ast (_node : ASTNode) : ASTNode :=
  match _node with
  | mkASTNode t c l ch =>
      mkASTNode t (if bool_decide (t ∈ FUNCTION_AST_TYPES) then FUNCTION else c)
                l (map _classify_ast ch)
  end.

(** The spans that [_parse_ast] collects and then drops. *)
Definition function_offsets (ast_model : ASTNode) (content : gmap Z string)
  : list (Z * Z) :=
  omap (fun node =>
          if String.eqb (ast_type node) "FunctionDef"
             && negb (Str.contains "__init__" (default "" (content !! lineno node)))
          then Some (lineno node, end_lineno node) else None)
       (children ast_model).

Definition _parse_ast (ast : ASTNode) (content : gmap Z string) : ASTNode :=
  let ast_model := _classify_ast ast in
  let _ := function_offsets ast_model content in
  ast_model.

(** The scan for developer messages in [compile]. *)
Definition scan_dev_messages (content : gmap Z string) : gmap Z string :=
  map_fold
    (fun line_no line dev_messages =>
       match DEV_MSG_search line with
       | Some group1 => <[line_no := Str.strip group1]> dev_messages
       | None => dev_messages
       end)
    ∅ content.

(** The identifier under which [compile] processes an entry of the
    compiler's [contracts] table; [None] is the [continue]. *)
Definition reconcile_source_id (src_dict : gmap string SourceJson)
    (source_id : string) : option string :=
  if bool_decide (source_id ∈ dom src_dict) then Some source_id
  else if bool_decide (sep +:+ source_id ∈ dom src_dict) then Some (sep +:+ source_id)
  else None.

(** The request of one settings group. *)
Definition make_input_json (self : VyperCompiler) (settings_set : SettingsSet)
    (src_dict : gmap string SourceJson) : InputJson :=
  let input_json := mkInputJson "Vyper" settings_set src_dict None in
  let interfaces := get_import_remapping self in
  if bool_decide (interfaces ≠ ∅)
  then mkInputJson (language input_json) (settings input_json) (sources input_json)
                   (Some interfaces)
  else input_json.

(** [evm = output.get("evm", {})]. *)
Definition evm_of (output : OutputJson) : EvmJson :=
  default (mkEvmJson None None) (evm output).

(** [runtime_bytecode = evm.get("deployedBytecode", {})]. *)
Definition runtime_bytecode_of (output : OutputJson) : RuntimeBytecodeJson :=
  default empty_bytecode (deployedBytecode (evm_of output)).

(** [opcodes = runtime_bytecode.get("opcodes", "").split(" ")]. *)
Definition opcodes_of (output : OutputJson) : list string :=
  Str.split " " (default "" (opcodes (runtime_bytecode_of output))).

Section Compile.

Variable self : VyperCompiler.
Variable vyper_version : Version.

(** The body of the loop over the contracts of one source: the artifact,
    or the exception that a missing key raises. *)
Definition compile_output (result : CompileResult) (source_id : string)
    (content : gmap Z string) (name : string) (output : OutputJson)
  : Raised + ContractType :=
  match result_sources result !! source_id with
  | None => inl (raise (KeyError source_id))
  | Some source_out =>
      let ast := (fun a => _parse_ast a content) <$> ast source_out in
      let evm := evm_of output in
      let runtime_bytecode := runtime_bytecode_of output in
      let opcodes := opcodes_of output in
      let '(compressed_src_map, pcmap) :=
        match sourceMap runtime_bytecode with
        | Some compressed =>
            let src_map := tail (SourceMap_parse compressed) in
            (Some compressed,
             Some (_get_pcmap self vyper_version ast src_map opcodes runtime_bytecode))
        | None => (None, None)
        end in
      let dev_messages := scan_dev_messages content in
      let source_id_path := Pathlib.of_string source_id in
      let final_source_id :=
        if Pathlib.is_absolute source_id_path
        then Pathlib.to_string (get_relative_path source_id_path pm_path)
        else source_id in
      let deployment_bytecode :=
        match bytecode_object evm with
        | Some b => if Str.truthy b then Some b else None
        | None => None
        end in
      let build runtime :=
        mkContractType ast name final_source_id deployment_bytecode runtime
                       (out_abi output) compressed_src_map pcmap
                       (out_userdoc output) (out_devdoc output) dev_messages in
      if bytecode_truthy runtime_bytecode
      then match object runtime_bytecode with
           | Some o => inr (build (Some o))
           | None => inl (raise (KeyError "object"))
           end
      else inr (build None)
  end.

(** The loop over the contracts of one source. *)
Fixpoint compile_outputs (settings_key : string) (result : CompileResult)
    (source_id : string) (content : gmap Z string)
    (output_items : list (string * OutputJson)) : Trace :=
  match output_items with
  | [] => Trace_nil
  | (name, output) :: rest =>
      match compile_output result source_id content name output with
      | inl e => mkTrace [] [] (Some e)
      | inr contract_type =>
          Trace_then (mkTrace [(contract_type, settings_key)] [] None)
                     (compile_outputs settings_key result source_id content rest)
      end
  end.

(** The loop over the sources of the compiler's answer. *)
Fixpoint compile_contracts (settings_key : string)
    (src_dict : gmap string SourceJson) (result : CompileResult)
    (entries : list (string * list (string * OutputJson))) : Trace :=
  match entries with
  | [] => Trace_nil
  | (source_id, output_items) :: rest =>
      match reconcile_source_id src_dict source_id with
      | None => compile_contracts settings_key src_dict result rest
      | Some source_id' =>
          let content :=
            Content_validate (default "" (content <$> src_dict !! source_id')) in
          Trace_then
            (compile_outputs settings_key result source_id' content output_items)
            (compile_contracts settings_key src_dict result rest)
      end
  end.

(** One round of the loop over the settings map. *)
Definition compile_group (settings_key : string) (settings_set : SettingsSet)
  : Trace :=
  let output_selection := default ∅ (outputSelection settings_set) in
  if bool_decide (output_selection = ∅) then Trace_nil
  else
    match _get_sources_dictionary self (dom output_selection) with
    | inl e => mkTrace [] [] (Some e)
    | inr src_dict =>
        let input_json := make_input_json self settings_set src_dict in
        match vvm_compile_standard input_json vyper_version pm_path with
        | inl (VyperError msg) =>
            mkTrace [] [input_json]
                    (Some (raise_from (VyperCompileError (VyperError msg))
                                      (VyperError msg)))
        | inl e => mkTrace [] [input_json] (Some (raise e))
        | inr result =>
            Trace_then (mkTrace [] [input_json] None)
                       (compile_contracts settings_key src_dict result
                                          (contracts result))
        end
    end.

(** [BaseVyperCompiler.compile]. *)
Fixpoint compile (settings : list (string * SettingsSet)) : Trace :=
  match settings with
  | [] => Trace_nil
  | (settings_key, settings_set) :: rest =>
      Trace_then (compile_group settings_key settings_set) (compile rest)
  end.

End Compile.

Section Settings.

Variable self : VyperCompiler.
Variable version : Version.
Variable source_paths : list Path.

(** [str(get_relative_path(source_path.absolute(), pm.path))]. *)
Definition source_id_of (source_path : Path) : string :=
  Pathlib.to_string (get_relative_path (Pathlib.absolute cwd source_path) pm_path).

Definition optimizations_map : gmap string Optimization :=
  get_optimization_pragma_map source_paths pm_path (_get_default_optimization self version).

Definition evm_version_map : gmap string string :=
  get_evm_version_pragma_map source_paths pm_path.

(** The optimization that [get_settings] settles on for a source. *)
Definition resolved_optimization (source_id : string) : Optimization :=
  match optimizations_map !! source_id with
  | Some optimization =>
      if Optimization_truthy optimization then optimization
      else _get_default_optimization self version
  | None => _get_default_optimization self version
  end.

(** [evm_version_map.get(source_id, default_evm_version)]. *)
Definition resolved_evm_version (source_id : string) : option string :=
  match evm_version_map !! source_id with
  | Some v => Some v
  | None => get_evm_version version
  end.

(** [f"{optimization}%{evm_version}".lower()]. *)
Definition make_settings_key (optimization : Optimization)
    (evm_version : option string) : string :=
  Str.lower (Optimization_str optimization +:+ "%" +:+ optional_str evm_version).

Definition settings_key_of (source_id : string) : string :=
  make_settings_key (resolved_optimization source_id) (resolved_evm_version source_id).

(** One round of the first loop of [get_settings]. *)
Definition group_source (output_selection : list (string * gset string))
    (source_path : Path) : list (string * gset string) :=
  let source_id := source_id_of source_path in
  let settings_key := settings_key_of source_id in
  match Dict.get settings_key output_selection with
  | None => Dict.set settings_key {[ source_id ]} output_selection
  | Some group => Dict.set settings_key (group ∪ {[ source_id ]}) output_selection
  end.

(** The first loop of [get_settings]: the file set of every settings key. *)
Definition group_sources : list (string * gset string) :=
  fold_left group_source source_paths [].

(** One round of the second loop: the payload of a key, or the
    [ValueError] of unpacking a key that does not split in two. *)
Definition settings_of_key (settings_key : string) (selection : gset string)
  : Raised + SettingsSet :=
  match Str.split "%" settings_key with
  | [optimization; evm_version] =>
      let optimization :=
        if String.eqb optimization "true" then OptBool true
        else if String.eqb optimization "false" then OptBool false
        else OptStr optimization in
      let selection_dict := _get_selection_dictionary self selection in
      let search_paths := (getsitepackages ++ ["."])%list in
      inr (mkSettingsSet optimization (Some selection_dict) search_paths
             (if Str.truthy evm_version
                 && negb (String.eqb evm_version "none" || String.eqb evm_version "null")
              then Some evm_version else None))
  | _ => inl (raise ValueError)
  end.

Fixpoint version_settings_of (output_selection : list (string * gset string))
    (version_settings : list (string * SettingsSet))
  : Raised + list (string * SettingsSet) :=
  match output_selection with
  | [] => inr version_settings
  | (settings_key, selection) :: rest =>
      match settings_of_key settings_key selection with
      | inl e => inl e
      | inr payload =>
          version_settings_of rest (Dict.set settings_key payload version_settings)
      end
  end.

(** [BaseVyperCompiler.get_settings]. *)
Definition get_settings : Raised + list (string * SettingsSet) :=
  version_settings_of group_sources [].

End Settings.

(** ** Definitions used to state further properties *)

(** The request that a round of [compile] sends for a settings entry:
    none when the output selection is missing or empty, or when the
    sources dictionary cannot be built. *)
Definition group_request (self : VyperCompiler) (settings_set : SettingsSet)
  : option InputJson :=
  let output_selection := default ∅ (outputSelection settings_set) in
  if bool_decide (output_selection = ∅) then None
  else match _get_sources_dictionary self (dom output_selection) with
       | inl _ => None
       | inr src_dict => Some (make_input_json self settings_set src_dict)
       end.

(** * Properties *)

(** ** Strings and ordered dictionaries *)

Lemma startswith_refl s : Str.startswith s s = true.
Proof. induction s as [|c s IH]; simpl; [done|]. by rewrite Ascii.eqb_refl. Qed.

Lemma startswith_app p s : Str.startswith p (p +:+ s) = true.
Proof. induction p as [|c p IH]; simpl; [done|]. by rewrite Ascii.eqb_refl. Qed.

Lemma contains_empty s : Str.contains "" s = true.
Proof. by destruct s. Qed.

Lemma contains_cons x c s : Str.contains x s = true → Str.contains x (String c s) = true.
Proof. intros H. simpl. rewrite H. apply orb_true_r. Qed.

Lemma split_nonempty sep s : Str.split sep s ≠ [].
Proof.
  induction s as [|c s IH]; simpl; [done|].
  destruct (Ascii.eqb c sep); [done|]. by destruct (Str.split sep s).
Qed.



Lemma lower_app a b : Str.lower (a +:+ b) = Str.lower a +:+ Str.lower b.
Proof. induction a as [|c a IH]; simpl; [done|]. by rewrite IH. Qed.

Lemma split_until_sep sep a b :
  (∀ c, In c (list_ascii_of_string a) → Ascii.eqb c sep = false) →
  head (Str.split sep (a +:+ String sep b)) = Some a.
Proof.
  induction a as [|c a IH]; simpl; intros H.
  - by rewrite Ascii.eqb_refl.
  - rewrite (H c) by auto.
    destruct (Str.split sep (a +:+ String sep b)) as [|g gs] eqn:E.
    { by destruct (split_nonempty sep (a +:+ String sep b)). }
    simpl. f_equal. f_equal.
    assert (Hh : head (g :: gs) = Some a) by (apply IH; auto).
    by inversion Hh.
Qed.

Lemma Dict_get_set_eq {V} k (v : V) d : Dict.get k (Dict.set k v d) = Some v.
Proof.
  induction d as [|[k' v'] d IH]; simpl.
  - by rewrite String.eqb_refl.
  - destruct (String.eqb k k') eqn:E; simpl; [by rewrite String.eqb_refl|by rewrite E].
Qed.

Lemma Dict_get_set_ne {V} k k' (v : V) d :
  k ≠ k' → Dict.get k' (Dict.set k v d) = Dict.get k' d.
Proof.
  intros Hne. induction d as [|[k0 v0] d IH]; simpl.
  - destruct (String.eqb k' k) eqn:E; [|done].
    apply String.eqb_eq in E. congruence.
  - destruct (String.eqb k k0) eqn:E; simpl.
    + apply String.eqb_eq in E. subst k0.
      destruct (String.eqb k' k) eqn:E'; [|done].
      apply String.eqb_eq in E'. congruence.
    + by rewrite IH.
Qed.

Lemma Dict_keys_set {V} k (v : V) d :
  Dict.keys (Dict.set k v d) =
  if bool_decide (k ∈ Dict.keys d) then Dict.keys d else (Dict.keys d ++ [k])%list.
Proof.
  unfold Dict.keys. induction d as [|[k0 v0] d IH]; [done|].
  cbn [Dict.set]. destruct (String.eqb k k0) eqn:E.
  - apply String.eqb_eq in E. subst. cbn [map fst].
    rewrite bool_decide_eq_true_2; [done|left].
  - apply String.eqb_neq in E. cbn [map fst]. rewrite IH.
    destruct (bool_decide (k ∈ map fst d)) eqn:B.
    + apply bool_decide_eq_true in B. rewrite bool_decide_eq_true_2; [done|by right].
    + apply bool_decide_eq_false in B.
      rewrite bool_decide_eq_false_2; [done|]. by intros [?|?]%elem_of_cons.
Qed.

Lemma Dict_get_None {V} k (d : list (string * V)) :
  Dict.get k d = None ↔ k ∉ Dict.keys d.
Proof.
  induction d as [|[k0 v0] d IH]; simpl.
  - split; [intros _; apply not_elem_of_nil|done].
  - destruct (String.eqb k k0) eqn:E.
    + apply String.eqb_eq in E. subst. split; [done|]. intros H. destruct H. left.
    + apply String.eqb_neq in E. rewrite IH. unfold Dict.keys.
      rewrite not_elem_of_cons. split; [by intros ?|by intros [_ ?]].
Qed.


Lemma Dict_set_NoDup {V} k (v : V) d :
  NoDup (Dict.keys d) → NoDup (Dict.keys (Dict.set k v d)).
Proof.
  intros Hnd. rewrite Dict_keys_set. case_bool_decide as Hk; [done|].
  apply NoDup_app. split_and!; [done| |apply NoDup_singleton].
  intros x Hx ->%list_elem_of_singleton. done.
Qed.

(** ** The AST classifier *)

Lemma classify_ast_type n : ast_type (_classify_ast n) = ast_type n.
Proof. by destruct n. Qed.

Lemma classify_line_numbers n : line_numbers (_classify_ast n) = line_numbers n.
Proof. by destruct n. Qed.

Lemma classify_children n : children (_classify_ast n) = map _classify_ast (children n).
Proof. by destruct n. Qed.

Lemma classify_classification n :
  classification (_classify_ast n) =
  if bool_decide (ast_type n ∈ FUNCTION_AST_TYPES) then FUNCTION else classification n.
Proof. by destruct n. Qed.

(** The nodes of the classified tree are the classified nodes of the
    tree, in the same order. *)
Lemma classify_subnodes n :
  subnodes (_classify_ast n) = map _classify_ast (subnodes n).
Proof.
  induction n as [t c l ch IH] using ASTNode_ind'.
  cbn [_classify_ast subnodes map]. f_equal.
  induction IH as [|x r Hx _ IHr]; [done|].
  cbn [map flat_map]. by rewrite map_app, Hx, IHr.
Qed.

Lemma classify_unclassified n : unclassified (_classify_ast n) = unclassified n.
Proof.
  induction n as [t c l ch IH] using ASTNode_ind'.
  cbn [_classify_ast unclassified]. f_equal.
  induction IH as [|x r Hx _ IHr]; [done|].
  cbn [map]. by rewrite Hx, IHr.
Qed.

(** C7. After [_classify_ast], every node of the tree, at any depth and
    whatever the tags of its ancestors, whose type tag is in
    [FUNCTION_AST_TYPES] is classified [FUNCTION]; the tree keeps its node
    count, the order of its nodes and children, its tags and its line
    spans; and a node whose tag is not in the set keeps the classification
    it had. *)
Theorem classify_ast_marks_functions_only (tree : ASTNode) :
  (∀ n, n ∈ subnodes (_classify_ast tree) →
        ast_type n ∈ FUNCTION_AST_TYPES → classification n = FUNCTION)
  ∧ unclassified (_classify_ast tree) = unclassified tree
  ∧ length (subnodes (_classify_ast tree)) = length (subnodes tree)
  ∧ (∀ i n, subnodes tree !! i = Some n →
        ∃ n', subnodes (_classify_ast tree) !! i = Some n'
              ∧ ast_type n' = ast_type n
              ∧ line_numbers n' = line_numbers n
              ∧ length (children n') = length (children n)
              ∧ (ast_type n ∉ FUNCTION_AST_TYPES →
                 classification n' = classification n)).
Proof.
  rewrite classify_subnodes. split_and!.
  - intros n (m & -> & _)%list_elem_of_fmap Hty.
    rewrite classify_ast_type in Hty. rewrite classify_classification.
    by rewrite bool_decide_eq_true_2.
  - apply classify_unclassified.
  - apply length_map.
  - intros i n Hi. exists (_classify_ast n). split_and!.
    + change (map _classify_ast (subnodes tree)) with (_classify_ast <$> subnodes tree).
      by rewrite list_lookup_fmap, Hi.
    + apply classify_ast_type.
    + apply classify_line_numbers.
    + by rewrite classify_children, length_map.
    + intros Hty. rewrite classify_classification.
      by rewrite bool_decide_eq_false_2.
Qed.

(** ** One contract of the compiler's answer *)

(** What [compile_output] puts in the artifact it returns. *)
Lemma compile_output_inv self v result source_id content name output ct :
  compile_output self v result source_id content name output = inr ct →
  ∃ source_out,
    result_sources result !! source_id = Some source_out
    ∧ ct_ast ct = (fun a => _parse_ast a content) <$> ast source_out
    ∧ contractName ct = name
    ∧ sourcemap ct = sourceMap (runtime_bytecode_of output)
    ∧ pcmap ct =
        (fun compressed =>
           _get_pcmap self v (ct_ast ct) (tail (SourceMap_parse compressed))
                      (opcodes_of output) (runtime_bytecode_of output))
        <$> sourceMap (runtime_bytecode_of output)
    ∧ dev_messages ct = scan_dev_messages content
    ∧ ct_abi ct = out_abi output
    ∧ userdoc ct = out_userdoc output
    ∧ devdoc ct = out_devdoc output.
Proof.
  unfold compile_output. intros H.
  destruct (result_sources result !! source_id) as [source_out|]; [|done].
  exists source_out. split; [done|].
  destruct (sourceMap (runtime_bytecode_of output)) as [compressed|];
    destruct (bytecode_truthy (runtime_bytecode_of output));
    try destruct (object (runtime_bytecode_of output));
    inversion H; subst; simpl; done.
Qed.

(** [compile_output] returns an artifact exactly when the keys it indexes
    are there: the source in [result["sources"]], and ["object"] in a
    non-empty runtime bytecode. *)
Lemma compile_output_returns self v result source_id content name output :
  is_Some (result_sources result !! source_id) →
  (bytecode_truthy (runtime_bytecode_of output) = true →
   is_Some (object (runtime_bytecode_of output))) →
  ∃ ct, compile_output self v result source_id content name output = inr ct.
Proof.
  intros [so Hso] Hobj. unfold compile_output. rewrite Hso.
  destruct (bytecode_truthy (runtime_bytecode_of output)).
  - destruct (Hobj eq_refl) as [o Ho]. rewrite Ho.
    destruct (sourceMap (runtime_bytecode_of output)); eauto.
  - destruct (sourceMap (runtime_bytecode_of output)); eauto.
Qed.

(** C1. For a contract whose runtime bytecode carries a source map, the
    map handed to [_get_pcmap] is the parsed sequence without its first
    entry, in the original order: entry [i] of it is entry [i + 1] of the
    parse, it is one entry shorter, and the compressed string is kept as
    the artifact's source map. The PC map is whatever the version's
    [_get_pcmap] returns on it, for every [self]. *)
Theorem source_map_drops_first_entry self v result source_id content name
    output ct compressed :
  compile_output self v result source_id content name output = inr ct →
  sourceMap (runtime_bytecode_of output) = Some compressed →
  ∃ src_map,
    pcmap ct = Some (_get_pcmap self v (ct_ast ct) src_map (opcodes_of output)
                                (runtime_bytecode_of output))
    ∧ sourcemap ct = Some compressed
    ∧ src_map = drop 1 (SourceMap_parse compressed)
    ∧ (∀ first rest, SourceMap_parse compressed = first :: rest → src_map = rest)
    ∧ (∀ i, src_map !! i = SourceMap_parse compressed !! S i)
    ∧ length src_map = length (SourceMap_parse compressed) - 1.
Proof.
  intros H Hsm.
  destruct (compile_output_inv _ _ _ _ _ _ _ _ H)
    as (so & _ & _ & _ & Hmap & Hpc & _).
  rewrite Hsm in Hmap, Hpc. simpl in Hpc.
  exists (tail (SourceMap_parse compressed)). split_and!.
  - done.
  - done.
  - by destruct (SourceMap_parse compressed).
  - by intros first rest ->.
  - intros i. by destruct (SourceMap_parse compressed).
  - destruct (SourceMap_parse compressed); simpl; lia.
Qed.

(** ** Developer messages *)



(** ** Traces *)

Lemma Trace_then_nil_l t : Trace_then Trace_nil t = t.
Proof. by destruct t. Qed.

Lemma Trace_then_assoc a b c :
  Trace_then (Trace_then a b) c = Trace_then a (Trace_then b c).
Proof.
  destruct a as [ya ra [ea|]], b as [yb rb [eb|]]; unfold Trace_then; simpl;
    try done.
  by rewrite !app_assoc.
Qed.

Lemma Trace_then_yielded a b x :
  x ∈ yielded (Trace_then a b) → x ∈ yielded a ∨ x ∈ yielded b.
Proof.
  unfold Trace_then. destruct (raised a); simpl; [by left|].
  by intros ?%elem_of_app.
Qed.

Lemma Trace_then_requests a b x :
  x ∈ requests (Trace_then a b) → x ∈ requests a ∨ x ∈ requests b.
Proof.
  unfold Trace_then. destruct (raised a); simpl; [by left|].
  by intros ?%elem_of_app.
Qed.

Section CompileFacts.

Variable self : VyperCompiler.
Variable v : Version.

Lemma compile_outputs_trace k result sid content items :
  requests (compile_outputs self v k result sid content items) = []
  ∧ ∀ x, x ∈ yielded (compile_outputs self v k result sid content items) → x.2 = k.
Proof.
  induction items as [|[name output] rest [IHr IHy]]; simpl.
  - split; [done|]. by intros x ?%elem_of_nil.
  - destruct (compile_output self v result sid content name output) as [e|ct]; simpl.
    + split; [done|]. by intros x ?%elem_of_nil.
    + unfold Trace_then; simpl. split; [done|].
      intros x [->|Hx]%elem_of_cons; [done|]. by apply IHy.
Qed.

Lemma compile_contracts_trace k src_dict result entries :
  requests (compile_contracts self v k src_dict result entries) = []
  ∧ ∀ x, x ∈ yielded (compile_contracts self v k src_dict result entries) → x.2 = k.
Proof.
  induction entries as [|[source_id items] rest [IHr IHy]]; simpl.
  - split; [done|]. by intros x ?%elem_of_nil.
  - destruct (reconcile_source_id src_dict source_id) as [sid|]; [|done].
    set (content := Content_validate _).
    destruct (compile_outputs_trace k result sid content items) as [Hr Hy].
    split.
    + unfold Trace_then. destruct (raised _); simpl; [done|]. by rewrite Hr, IHr.
    + intros x [Hx|Hx]%Trace_then_yielded; eauto.
Qed.

Lemma compile_contracts_app k src_dict result a b :
  compile_contracts self v k src_dict result (a ++ b) =
  Trace_then (compile_contracts self v k src_dict result a)
             (compile_contracts self v k src_dict result b).
Proof.
  induction a as [|[source_id items] a IH]; simpl.
  - by rewrite Trace_then_nil_l.
  - destruct (reconcile_source_id src_dict source_id); [|done].
    by rewrite IH, Trace_then_assoc.
Qed.

Lemma compile_app a b :
  compile self v (a ++ b) = Trace_then (compile self v a) (compile self v b).
Proof.
  induction a as [|[k ss] a IH]; simpl.
  - by rewrite Trace_then_nil_l.
  - by rewrite IH, Trace_then_assoc.
Qed.

(** What one round of [compile] sends and yields: at most one request,
    built by [make_input_json] from the sources dictionary of the group,
    and artifacts under the group's key only. *)
Lemma compile_group_trace k ss :
  (∀ req, req ∈ requests (compile_group self v k ss) →
     ∃ sel src_dict,
       outputSelection ss = Some sel ∧ sel ≠ ∅
       ∧ _get_sources_dictionary self (dom sel) = inr src_dict
       ∧ req = make_input_json self ss src_dict)
  ∧ (∀ x, x ∈ yielded (compile_group self v k ss) → x.2 = k)
  ∧ (length (requests (compile_group self v k ss)) ≤ 1)%nat.
Proof.
  unfold compile_group.
  destruct (outputSelection ss) as [sel|] eqn:Hsel; simpl.
  2: { rewrite bool_decide_eq_true_2 by done. simpl.
       split_and!; [by intros ? ?%elem_of_nil|by intros ? ?%elem_of_nil|lia]. }
  case_bool_decide as Hne; simpl.
  { split_and!; [by intros ? ?%elem_of_nil|by intros ? ?%elem_of_nil|lia]. }
  destruct (_get_sources_dictionary self (dom sel)) as [e|src_dict] eqn:Hsrc; simpl.
  { split_and!; [by intros ? ?%elem_of_nil|by intros ? ?%elem_of_nil|lia]. }
  assert (Hreq : ∀ req, req ∈ [make_input_json self ss src_dict] →
     ∃ sel0 src_dict0, Some sel = Some sel0 ∧ sel0 ≠ ∅
       ∧ _get_sources_dictionary self (dom sel0) = inr src_dict0
       ∧ req = make_input_json self ss src_dict0).
  { intros req ->%list_elem_of_singleton. by exists sel, src_dict. }
  destruct (vvm_compile_standard _ v pm_path) as [[]|result]; simpl;
    try (split_and!; [done|by intros ? ?%elem_of_nil|lia]).
  destruct (compile_contracts_trace k src_dict result (contracts result)) as [Hr Hy].
  unfold Trace_then; simpl. rewrite Hr. split_and!; [done|done|simpl; lia].
Qed.

Lemma compile_yielded_keys settings x :
  x ∈ yielded (compile self v settings) → x.2 ∈ Dict.keys settings.
Proof.
  induction settings as [|[k ss] rest IH]; simpl.
  - by intros ?%elem_of_nil.
  - intros [Hx|Hx]%Trace_then_yielded.
    + destruct (compile_group_trace k ss) as (_ & Hy & _). rewrite (Hy x Hx). left.
    + right. by apply IH.
Qed.

Lemma compile_requests settings req :
  req ∈ requests (compile self v settings) →
  ∃ k ss sel src_dict,
    (k, ss) ∈ settings ∧ outputSelection ss = Some sel ∧ sel ≠ ∅
    ∧ _get_sources_dictionary self (dom sel) = inr src_dict
    ∧ req = make_input_json self ss src_dict.
Proof.
  induction settings as [|[k ss] rest IH]; simpl.
  - by intros ?%elem_of_nil.
  - intros [Hx|Hx]%Trace_then_requests.
    + destruct (compile_group_trace k ss) as (Hr & _).
      destruct (Hr req Hx) as (sel & src_dict & ?). exists k, ss, sel, src_dict.
      split; [left|done].
    + destruct (IH Hx) as (k' & ss' & sel & src_dict & Hin & ?).
      exists k', ss', sel, src_dict. split; [by right|done].
Qed.

Lemma Trace_then_raised_None a b :
  raised (Trace_then a b) = None → raised a = None ∧ raised b = None.
Proof. unfold Trace_then. destruct (raised a) eqn:Ha; simpl; [by rewrite Ha|done]. Qed.

(** A run that ended normally got an answer to every request it sent. *)
Lemma compile_group_answered k ss req :
  raised (compile_group self v k ss) = None →
  req ∈ requests (compile_group self v k ss) →
  ∃ result, vvm_compile_standard req v pm_path = inr result.
Proof.
  unfold compile_group. case_bool_decide; simpl; [by intros _ ?%elem_of_nil|].
  destruct (_get_sources_dictionary self _) as [e|src_dict]; simpl;
    [by intros _ ?%elem_of_nil|].
  destruct (vvm_compile_standard _ v pm_path) as [[]|result] eqn:E; simpl; try done.
  intros _ [->|Hreq]%elem_of_cons.
  - eauto.
  - destruct (compile_contracts_trace k src_dict result (contracts result)) as [Hr _].
    rewrite Hr in Hreq. by apply elem_of_nil in Hreq.
Qed.

Lemma compile_answered settings req :
  raised (compile self v settings) = None →
  req ∈ requests (compile self v settings) →
  ∃ result, vvm_compile_standard req v pm_path = inr result.
Proof.
  induction settings as [|[k ss] rest IH]; simpl.
  - by intros _ ?%elem_of_nil.
  - intros [Hg Hrest]%Trace_then_raised_None [Hreq|Hreq]%Trace_then_requests.
    + by apply (compile_group_answered k ss).
    + by apply IH.
Qed.

End CompileFacts.

(** ** Reconciling the compiler's source identifiers *)

(** C4. An entry of the compiler's [contracts] table is processed under
    its own identifier when that is a key of the request's sources;
    otherwise under the identifier prefixed with one path separator when
    that is a key; otherwise it is skipped: the run of [compile] over the
    table is the run over the table without the entry, so the entry adds
    no artifact and no error. *)
Theorem unmatched_source_is_skipped self v k src_dict result source_id items :
  (source_id ∈ dom src_dict →
     reconcile_source_id src_dict source_id = Some source_id)
  ∧ (source_id ∉ dom src_dict → sep +:+ source_id ∈ dom src_dict →
     reconcile_source_id src_dict source_id = Some (sep +:+ source_id))
  ∧ (source_id ∉ dom src_dict → sep +:+ source_id ∉ dom src_dict →
     reconcile_source_id src_dict source_id = None)
  ∧ (∀ before after,
       compile_contracts self v k src_dict result
                         (before ++ (source_id, items) :: after) =
       match reconcile_source_id src_dict source_id with
       | Some source_id' =>
           Trace_then
             (compile_contracts self v k src_dict result before)
             (Trace_then
                (compile_outputs self v k result source_id'
                   (Content_validate (default "" (content <$> src_dict !! source_id')))
                   items)
                (compile_contracts self v k src_dict result after))
       | None => compile_contracts self v k src_dict result (before ++ after)
       end).
Proof.
  unfold reconcile_source_id. split_and!.
  - intros H. by rewrite bool_decide_eq_true_2.
  - intros H1 H2. by rewrite bool_decide_eq_false_2, bool_decide_eq_true_2.
  - intros H1 H2. by rewrite !bool_decide_eq_false_2.
  - intros before after. rewrite !compile_contracts_app. cbn [compile_contracts].
    unfold reconcile_source_id.
    destruct (bool_decide (source_id ∈ dom src_dict)); [done|].
    destruct (bool_decide (sep +:+ source_id ∈ dom src_dict)); done.
Qed.

(** ** The request *)

(** X1. The base import remapping has a key exactly for every contract
    type of a dependency manifest, named [key/name.json] after the
    dependency and the contract; a dependency without contract types
    adds nothing, and without such contract types the remapping is
    empty. *)
Lemma base_import_remapping_dom filename :
  filename ∈ dom base_get_import_remapping ↔
  ∃ key contract_types name abi_list,
    (key, Some contract_types) ∈ dependencies
    ∧ (name, abi_list) ∈ contract_types
    ∧ filename = key +:+ "/" +:+ name +:+ ".json".
Proof.
  unfold base_get_import_remapping.
  assert (Hin : ∀ key (cts : list (string * list Json)) (acc : gmap string InterfaceJson),
    filename ∈ dom (fold_left
        (fun interfaces '(name, abi_list) =>
           <[key +:+ "/" +:+ name +:+ ".json" := mkInterfaceJson abi_list]> interfaces)
        cts acc) ↔
    filename ∈ dom acc
    ∨ ∃ name abi_list, (name, abi_list) ∈ cts
                       ∧ filename = key +:+ "/" +:+ name +:+ ".json").
  { intros key cts. induction cts as [|[name abi_list] cts IH]; simpl; intros acc.
    - split; [by left|]. intros [?|(? & ? & ?%elem_of_nil & _)]; done.
    - rewrite IH, dom_insert_L, elem_of_union, elem_of_singleton. split.
      + intros [[->|?]|(n & a & ? & ?)].
        * right. exists name, abi_list. split; [left|done].
        * by left.
        * right. exists n, a. split; [by right|done].
      + intros [?|(n & a & [[= -> ->]|?]%elem_of_cons & ->)].
        * left. by right.
        * left. by left.
        * right. eauto. }
  assert (Hout : ∀ (deps : list (string * option (list (string * list Json))))
                   (acc : gmap string InterfaceJson),
    filename ∈ dom (fold_left
        (fun interfaces '(key, contract_types) =>
           fold_left
             (fun interfaces '(name, abi_list) =>
                let filename := key +:+ "/" +:+ name +:+ ".json" in
                <[filename := mkInterfaceJson abi_list]> interfaces)
             (default [] contract_types) interfaces)
        deps acc) ↔
    filename ∈ dom acc
    ∨ ∃ key cts name abi_list, (key, Some cts) ∈ deps ∧ (name, abi_list) ∈ cts
                               ∧ filename = key +:+ "/" +:+ name +:+ ".json").
  { induction deps as [|[key cts] deps IH]; simpl; intros acc.
    - split; [by left|]. intros [?|(? & ? & ? & ? & ?%elem_of_nil & _)]; done.
    - rewrite IH, Hin. split.
      + intros [[?|(n & a & Hn & ->)]|(k & c & n & a & ? & ? & ?)].
        * by left.
        * destruct cts as [cts|]; [|by apply elem_of_nil in Hn].
          right. exists key, cts, n, a. split; [left|done].
        * right. exists k, c, n, a. split; [by right|done].
      + intros [?|(k & c & n & a & [[= <- <-]|?]%elem_of_cons & ? & ->)].
        * left. by left.
        * left. right. simpl. eauto.
        * right. exists k, c, n, a. done. }
  rewrite Hout, dom_empty_L. split.
  - intros [?%not_elem_of_empty|?]; done.
  - by right.
Qed.

(** C10. Every request that [compile] sends has the ["interfaces"] key
    exactly when the import remapping of the version is not empty, and
    then the key holds that remapping; with an empty remapping the request
    has no such key. *)
Theorem interfaces_key_iff_remapping_nonempty self v settings :
  Forall (fun req =>
            (interfaces req = None ↔ get_import_remapping self = ∅)
            ∧ (is_Some (interfaces req) ↔ get_import_remapping self ≠ ∅)
            ∧ (∀ m, interfaces req = Some m → m = get_import_remapping self)
            ∧ language req = "Vyper")
         (requests (compile self v settings)).
Proof.
  apply Forall_forall. intros req Hreq.
  destruct (compile_requests _ _ _ _ Hreq) as (k & ss & sel & src_dict & _ & _ & _ & _ & ->).
  unfold make_input_json. case_bool_decide as Hne; simpl.
  - split_and!; [split; [done|by intros ?]|split; [done|eauto]|by intros m [= <-]|done].
  - assert (He : get_import_remapping self = ∅).
    { destruct (decide (get_import_remapping self = ∅)); [done|by destruct Hne]. }
    split_and!; [done|split; [by intros [? ?]|by intros ?]|by intros m ?|done].
Qed.

(** ** Compiler errors *)

(** C3. When the external compiler raises [VyperError] on the request of
    a settings group, [compile] ends with a [VyperCompileError] that wraps
    the error and has it as its cause; the request of that group was sent
    once, as the last one, with no second attempt; and nothing is yielded under the key of
    that group: what was yielded is what the groups before it produced. *)
Theorem compiler_error_aborts_group self v before k ss after sel src_dict msg :
  NoDup (Dict.keys (before ++ (k, ss) :: after)) →
  raised (compile self v before) = None →
  outputSelection ss = Some sel → sel ≠ ∅ →
  _get_sources_dictionary self (dom sel) = inr src_dict →
  vvm_compile_standard (make_input_json self ss src_dict) v pm_path
    = inl (VyperError msg) →
  let trace := compile self v (before ++ (k, ss) :: after) in
  raised trace = Some (mkRaised (VyperCompileError (VyperError msg))
                                (Some (VyperError msg)))
  ∧ requests trace =
      (requests (compile self v before) ++ [make_input_json self ss src_dict])%list
  ∧ (make_input_json self ss src_dict ∉ requests (compile self v before))
  ∧ yielded trace = yielded (compile self v before)
  ∧ (∀ contract_type, (contract_type, k) ∉ yielded trace).
Proof.
  intros Hnd Hpre Hsel Hne Hsrc Herr trace.
  assert (Hgroup : compile_group self v k ss =
            mkTrace [] [make_input_json self ss src_dict]
              (Some (raise_from (VyperCompileError (VyperError msg)) (VyperError msg)))).
  { unfold compile_group. rewrite Hsel. simpl.
    rewrite bool_decide_eq_false_2 by done. by rewrite Hsrc, Herr. }
  assert (Htrace : trace =
            mkTrace (yielded (compile self v before))
                    (requests (compile self v before) ++ [make_input_json self ss src_dict])
                    (Some (raise_from (VyperCompileError (VyperError msg)) (VyperError msg)))).
  { unfold trace. rewrite compile_app. cbn [compile]. rewrite Hgroup.
    unfold Trace_then at 2. simpl. unfold Trace_then. rewrite Hpre. simpl.
    by rewrite app_nil_r. }
  rewrite Htrace. simpl. split_and!; try done.
  { intros Hin. destruct (compile_answered _ _ _ _ Hpre Hin) as [result Hres].
    by rewrite Herr in Hres. }
  intros ct Hin. apply compile_yielded_keys in Hin. simpl in Hin.
  unfold Dict.keys in Hnd. rewrite map_app in Hnd. simpl in Hnd.
  apply NoDup_app in Hnd as (_ & Hdisj & _).
  apply (Hdisj k Hin). left.
Qed.

(** ** Settings groups *)

Section SettingsFacts.

Variable self : VyperCompiler.
Variable version : Version.
Variable source_paths : list Path.

Local Abbreviation key_of := (settings_key_of self version source_paths).
Local Abbreviation groups := (group_sources self version source_paths).
Local Abbreviation step := (group_source self version source_paths).

Lemma group_source_keys acc p :
  NoDup (Dict.keys acc) → NoDup (Dict.keys (step acc p)).
Proof.
  intros H. unfold group_source.
  destruct (Dict.get _ acc); by apply Dict_set_NoDup.
Qed.


Lemma group_fold_keys srcs acc :
  NoDup (Dict.keys acc) → NoDup (Dict.keys (fold_left step srcs acc)).
Proof.
  revert acc. induction srcs as [|p srcs IH]; simpl; intros acc H; [done|].
  by apply IH, group_source_keys.
Qed.


Lemma groups_keys : NoDup (Dict.keys groups).
Proof. apply group_fold_keys. simpl. apply NoDup_nil_2. Qed.




(** The payloads of [get_settings]: the second loop gives every key of
    the grouping the payload that [settings_of_key] builds for it. *)
Lemma version_settings_of_get l acc settings k :
  NoDup (Dict.keys l) →
  version_settings_of self l acc = inr settings →
  Dict.get k settings =
  match Dict.get k l with
  | Some selection =>
      match settings_of_key self k selection with
      | inr payload => Some payload
      | inl _ => None
      end
  | None => Dict.get k acc
  end.
Proof.
  revert acc. induction l as [|[k0 sel0] rest IH]; simpl; intros acc Hnd H.
  - by injection H as ->.
  - apply NoDup_cons in Hnd as [Hk0 Hnd].
    destruct (settings_of_key self k0 sel0) as [e|payload] eqn:Hp; [done|].
    rewrite (IH _ Hnd H). destruct (String.eqb k k0) eqn:E.
    + apply String.eqb_eq in E. subst k0.
      apply Dict_get_None in Hk0. rewrite Hk0, Dict_get_set_eq, Hp. done.
    + apply String.eqb_neq in E.
      destruct (Dict.get k rest); [done|]. by rewrite Dict_get_set_ne.
Qed.

Lemma get_settings_payload settings k payload :
  get_settings self version source_paths = inr settings →
  Dict.get k settings = Some payload →
  ∃ selection, Dict.get k groups = Some selection
               ∧ settings_of_key self k selection = inr payload.
Proof.
  unfold get_settings. intros H Hk.
  rewrite (version_settings_of_get _ _ _ k groups_keys H) in Hk.
  destruct (Dict.get k groups) as [selection|]; [|done].
  exists selection. split; [done|].
  destruct (settings_of_key self k selection); by inversion Hk.
Qed.

Lemma Optimization_falsy o :
  Optimization_truthy o = false ↔ o = OptBool false ∨ o = OptStr "".
Proof.
  destruct o as [[]|[|c s]]; simpl; split; intros H; try done;
    try (by left); try (by right); by destruct H.
Qed.

(** C9. A source whose entry in the optimization pragma map is absent or
    falsy (the boolean [False] or the empty string) gets the default
    optimization of the version. When that default is [True], the settings
    key of such a source is ["true%"] followed by the lowercase runtime
    version, so its optimization field is ["true"] and not ["false"], and
    the payload that [get_settings] returns under that key has
    [optimize = True]. *)
Theorem falsy_pragma_takes_default source_id :
  (∀ o, optimizations_map self version source_paths !! source_id = Some o →
        o = OptBool false ∨ o = OptStr "") →
  resolved_optimization self version source_paths source_id
  = _get_default_optimization self version
  ∧ (_get_default_optimization self version = OptBool true →
     key_of source_id
     = "true%" +:+ Str.lower (optional_str (resolved_evm_version version source_paths source_id))
     ∧ head (Str.split "%" (key_of source_id)) = Some "true"
     ∧ Str.startswith "false" (key_of source_id) = false
     ∧ ∀ settings payload,
         get_settings self version source_paths = inr settings →
         Dict.get (key_of source_id) settings = Some payload →
         optimize payload = OptBool true).
Proof.
  intros Hfalsy.
  assert (Hres : resolved_optimization self version source_paths source_id
                 = _get_default_optimization self version).
  { unfold resolved_optimization.
    destruct (optimizations_map self version source_paths !! source_id) as [o|]; [|done].
    destruct (Hfalsy o eq_refl) as [-> | ->]; done. }
  split; [done|]. intros Hdef.
  assert (Hkey : key_of source_id = "true%" +:+
            Str.lower (optional_str (resolved_evm_version version source_paths source_id))).
  { unfold settings_key_of, make_settings_key. rewrite Hres, Hdef.
    by rewrite lower_app. }
  assert (Hhead : head (Str.split "%" (key_of source_id)) = Some "true").
  { rewrite Hkey. apply (split_until_sep "%" "true").
    simpl. intros c Hc. repeat destruct Hc as [<-|Hc]; done. }
  split_and!; [done|done|by rewrite Hkey|].
  intros settings payload Hget Hpay.
  destruct (get_settings_payload _ _ _ Hget Hpay) as (selection & _ & Hof).
  unfold settings_of_key in Hof.
  destruct (Str.split "%" (key_of source_id)) as [|o [|e [|]]]; try done.
  injection Hhead as ->. simpl in Hof. by injection Hof as <-.
Qed.

End SettingsFacts.

(** ** Output selection and sources *)











(** ** Where the artifacts of [compile] come from *)

Lemma compile_outputs_yielded self v k result sid content items x :
  x ∈ yielded (compile_outputs self v k result sid content items) →
  ∃ name output,
    (name, output) ∈ items
    ∧ compile_output self v result sid content name output = inr x.1.
Proof.
  induction items as [|[name output] rest IH]; simpl.
  - by intros ?%elem_of_nil.
  - destruct (compile_output self v result sid content name output) as [e|ct] eqn:E;
      simpl; [by intros ?%elem_of_nil|].
    intros [->|Hx]%elem_of_cons.
    + exists name, output. split; [left|done].
    + destruct (IH Hx) as (n & o & Hin & Ho). exists n, o. split; [by right|done].
Qed.

Lemma compile_contracts_yielded self v k src_dict result entries x :
  x ∈ yielded (compile_contracts self v k src_dict result entries) →
  ∃ source_id items sid name output,
    (source_id, items) ∈ entries
    ∧ reconcile_source_id src_dict source_id = Some sid
    ∧ (name, output) ∈ items
    ∧ compile_output self v result sid
        (Content_validate (default "" (content <$> src_dict !! sid))) name output
      = inr x.1.
Proof.
  induction entries as [|[source_id items] rest IH]; simpl.
  - by intros ?%elem_of_nil.
  - destruct (reconcile_source_id src_dict source_id) as [sid|] eqn:E.
    + intros [Hx|Hx]%Trace_then_yielded.
      * apply compile_outputs_yielded in Hx as (n & o & Hin & Ho).
        exists source_id, items, sid, n, o. split; [left|done].
      * destruct (IH Hx) as (s & i & sid' & n & o & Hin & ?).
        exists s, i, sid', n, o. split; [by right|done].
    + intros Hx. destruct (IH Hx) as (s & i & sid' & n & o & Hin & ?).
      exists s, i, sid', n, o. split; [by right|done].
Qed.

(** X2. Every artifact that [compile] yields is the result of
    [compile_output] on a contract of the compiler's answer to the request
    of the group it is yielded under, with the line table of the source
    that the request holds under the reconciled identifier. *)
Lemma compile_yielded_inv self v settings x :
  x ∈ yielded (compile self v settings) →
  ∃ ss sel src_dict result source_id items sid name output,
    (x.2, ss) ∈ settings
    ∧ outputSelection ss = Some sel
    ∧ _get_sources_dictionary self (dom sel) = inr src_dict
    ∧ vvm_compile_standard (make_input_json self ss src_dict) v pm_path = inr result
    ∧ (source_id, items) ∈ contracts result
    ∧ reconcile_source_id src_dict source_id = Some sid
    ∧ (name, output) ∈ items
    ∧ compile_output self v result sid
        (Content_validate (default "" (content <$> src_dict !! sid))) name output
      = inr x.1.
Proof.
  induction settings as [|[k ss] rest IH]; simpl.
  - by intros ?%elem_of_nil.
  - intros [Hx|Hx]%Trace_then_yielded.
    + pose proof (proj1 (proj2 (compile_group_trace self v k ss)) x Hx) as Hk.
      unfold compile_group in Hx.
      destruct (outputSelection ss) as [sel|] eqn:Hsel; simpl in Hx.
      2: { rewrite bool_decide_eq_true_2 in Hx by done. by apply elem_of_nil in Hx. }
      case_bool_decide; [by apply elem_of_nil in Hx|].
      destruct (_get_sources_dictionary self (dom sel)) as [e|src_dict] eqn:Hsrc;
        [by apply elem_of_nil in Hx|].
      destruct (vvm_compile_standard _ v pm_path) as [[]|result] eqn:Hres;
        try (by apply elem_of_nil in Hx).
      apply Trace_then_yielded in Hx as [Hx|Hx]; [by apply elem_of_nil in Hx|].
      apply compile_contracts_yielded in Hx as (s & i & sid & n & o & ? & ? & ? & ?).
      exists ss, sel, src_dict, result, s, i, sid, n, o. rewrite Hk.
      split_and!; try done. left.
    + destruct (IH Hx) as (ss' & sel & sd & r & s & i & sid & n & o & Hin & ?).
      exists ss', sel, sd, r, s, i, sid, n, o. split; [by right|done].
Qed.

(** ** Further properties of [compile] *)

(** X3. Once a settings group has ended [compile] with an exception, the
    groups after it are not attempted: the trace, with its requests and
    artifacts, is the trace up to the failure. *)
Theorem compile_stops_at_first_error self v before after e :
  raised (compile self v before) = Some e →
  compile self v (before ++ after) = compile self v before.
Proof.
  intros H. rewrite compile_app. unfold Trace_then. by rewrite H.
Qed.

(** X5. A settings entry whose output selection is missing or empty is
    passed over: [compile] behaves as if the entry were not in the map, so
    no sources are read and no request is sent for it. *)
Theorem empty_selection_group_is_skipped self v before k ss after :
  outputSelection ss = None ∨ outputSelection ss = Some ∅ →
  compile self v (before ++ (k, ss) :: after) = compile self v (before ++ after).
Proof.
  intros H. rewrite !compile_app. cbn [compile].
  assert (Hg : compile_group self v k ss = Trace_nil).
  { unfold compile_group. destruct H as [-> | ->]; simpl;
      by rewrite bool_decide_eq_true_2. }
  by rewrite Hg, Trace_then_nil_l.
Qed.

Lemma Trace_then_requests_app a b :
  raised a = None → requests (Trace_then a b) = (requests a ++ requests b)%list.
Proof. intros H. unfold Trace_then. by rewrite H. Qed.

Lemma compile_group_requests self v k ss :
  requests (compile_group self v k ss) `prefix_of` option_list (group_request self ss)
  ∧ (raised (compile_group self v k ss) = None →
     requests (compile_group self v k ss) = option_list (group_request self ss)).
Proof.
  unfold compile_group, group_request.
  case_bool_decide; simpl; [done|].
  destruct (_get_sources_dictionary self _) as [e|src_dict]; simpl; [done|].
  destruct (vvm_compile_standard _ v pm_path) as [[]|result]; simpl; try done.
  destruct (compile_contracts_trace self v k src_dict result (contracts result))
    as [Hr _].
  unfold Trace_then; simpl. by rewrite Hr.
Qed.

Lemma omap_length_le {A B} (f : A → option B) (l : list A) :
  (length (omap f l) ≤ length l)%nat.
Proof.
  induction l as [|x l IH]; [done|].
  change (omap f (x :: l)) with (match f x with
                                 | Some y => y :: omap f l
                                 | None => omap f l
                                 end).
  destruct (f x); simpl; lia.
Qed.

(** X4. [compile] calls the compiler at most once per settings entry, in
    the order of the settings map: the requests it sends are a prefix of
    the requests of the entries that have a non-empty output selection and
    a sources dictionary, and are all of them when no exception ends the
    run. *)
Theorem requests_one_per_group_in_order self v groups :
  requests (compile self v groups)
    `prefix_of` omap (fun entry => group_request self entry.2) groups
  ∧ (raised (compile self v groups) = None →
     requests (compile self v groups)
     = omap (fun entry => group_request self entry.2) groups)
  ∧ (length (requests (compile self v groups)) ≤ length groups)%nat.
Proof.
  assert (H : requests (compile self v groups)
                `prefix_of` omap (fun entry => group_request self entry.2) groups
              ∧ (raised (compile self v groups) = None →
                 requests (compile self v groups)
                 = omap (fun entry => group_request self entry.2) groups)).
  { induction groups as [|[k ss] rest [IHp IHe]]; simpl; [done|].
    destruct (compile_group_requests self v k ss) as [Hp He].
    assert (Hcons : omap (fun entry : string * SettingsSet => group_request self entry.2)
                      ((k, ss) :: rest)
                    = (option_list (group_request self ss)
                       ++ omap (fun entry => group_request self entry.2) rest)%list).
    { simpl. by destruct (group_request self ss). }
    simpl in Hcons. rewrite Hcons. split.
    - destruct (raised (compile_group self v k ss)) as [e|] eqn:Hr.
      + unfold Trace_then. rewrite Hr. by apply prefix_app_r.
      + rewrite Trace_then_requests_app by done. rewrite (He eq_refl).
        by apply prefix_app.
    - intros [Hg Hrest]%Trace_then_raised_None.
      rewrite Trace_then_requests_app by done. by rewrite (He Hg), (IHe Hrest). }
  destruct H as [Hp He]. split_and!; [done|done|].
  apply prefix_length in Hp. etrans; [exact Hp|]. apply omap_length_le.
Qed.

(** ** Errors and edge cases of one contract *)


(** X7. A source that is missing from [result["sources"]] ends the run at
    its first contract with [KeyError]: none of its contracts is yielded.
    This is what happens after the prefix retry when the compiler lists
    the source under the identifier without the prefix only. *)
Theorem missing_result_source_raises self v k src_dict result source_id
    source_id' name output items rest :
  reconcile_source_id src_dict source_id = Some source_id' →
  result_sources result !! source_id' = None →
  compile_contracts self v k src_dict result
                    ((source_id, (name, output) :: items) :: rest)
  = mkTrace [] [] (Some (raise (KeyError source_id'))).
Proof.
  intros Hrec Hnone. cbn [compile_contracts]. rewrite Hrec.
  cbn [compile_outputs]. unfold compile_output at 1. rewrite Hnone. done.
Qed.

Lemma is_absolute_prefixed s :
  Pathlib.is_absolute (Pathlib.of_string (sep +:+ s)) = true.
Proof.
  unfold Pathlib.is_absolute, Pathlib.of_string, Pathlib.root_of, sep. cbn [root].
  destruct (Str.startswith "///" ("/" +:+ s)); [done|].
  destruct (Str.startswith "//" ("/" +:+ s)); [done|].
  done.
Qed.

(** X8. The [sourceId] of an artifact is the identifier itself when that is
    a relative path, and the path relative to the project otherwise; an
    identifier that the prefix retry produced starts with the separator, so
    it always goes through [get_relative_path]. *)
Theorem artifact_source_id self v result source_id content name output ct :
  compile_output self v result source_id content name output = inr ct →
  (Pathlib.is_absolute (Pathlib.of_string source_id) = false →
   sourceId ct = source_id)
  ∧ (Pathlib.is_absolute (Pathlib.of_string source_id) = true →
     sourceId ct
     = Pathlib.to_string (get_relative_path (Pathlib.of_string source_id) pm_path))
  ∧ (∀ s, source_id = sep +:+ s →
       sourceId ct
       = Pathlib.to_string (get_relative_path (Pathlib.of_string source_id) pm_path)).
Proof.
  intros H.
  assert (Hid : sourceId ct =
                if Pathlib.is_absolute (Pathlib.of_string source_id)
                then Pathlib.to_string
                       (get_relative_path (Pathlib.of_string source_id) pm_path)
                else source_id).
  { unfold compile_output in H.
    destruct (result_sources result !! source_id); [|done].
    destruct (sourceMap (runtime_bytecode_of output));
      destruct (bytecode_truthy (runtime_bytecode_of output));
      try destruct (object (runtime_bytecode_of output));
      inversion H; subst; done. }
  split_and!.
  - intros Hrel. by rewrite Hid, Hrel.
  - intros Habs. by rewrite Hid, Habs.
  - intros s ->. by rewrite Hid, is_absolute_prefixed.
Qed.

(** X9. The identifier that reconciliation settles on is a key of the
    request's sources, so reading the source text under it cannot fail;
    it is the compiler's identifier, or that identifier with one separator
    in front when the plain one is not a key. *)
Theorem reconciled_id_is_a_source_key src_dict source_id source_id' :
  reconcile_source_id src_dict source_id = Some source_id' →
  is_Some (src_dict !! source_id')
  ∧ (source_id' = source_id
     ∨ ((source_id ∉ dom src_dict) ∧ source_id' = sep +:+ source_id)).
Proof.
  unfold reconcile_source_id.
  case_bool_decide as H1.
  - intros [= <-]. split; [by apply elem_of_dom|by left].
  - case_bool_decide as H2; [|done].
    intros [= <-]. split; [by apply elem_of_dom|by right].
Qed.

Lemma join_split sep s : Str.join sep (Str.split sep s) = s.
Proof.
  induction s as [|c s IH]; [done|]. cbn [Str.split].
  destruct (Str.split sep s) as [|f fs] eqn:E.
  { by destruct (split_nonempty sep s). }
  destruct (Ascii.eqb c sep) eqn:Ec.
  - apply Ascii.eqb_eq in Ec. subst c.
    change (Str.join sep ("" :: f :: fs))
      with ("" +:+ String sep (Str.join sep (f :: fs))).
    by rewrite IH.
  - rewrite <- IH. by destruct fs.
Qed.

(** X10. The opcode list given to [_get_pcmap] is never empty: without
    ["opcodes"] in the runtime bytecode it is the one-element list of the
    empty string; and joining it with single spaces gives back the
    compiler's opcode string. *)
Theorem opcodes_never_empty output :
  opcodes_of output ≠ []
  ∧ (opcodes (runtime_bytecode_of output) = None → opcodes_of output = [""])
  ∧ Str.join " " (opcodes_of output)
    = default "" (opcodes (runtime_bytecode_of output)).
Proof.
  unfold opcodes_of. split_and!.
  - apply split_nonempty.
  - by intros ->.
  - apply join_split.
Qed.

(** ** More on the classifier *)

(** X11. Classifying twice is classifying once, and classification never
    takes [FUNCTION] away: a node that already has it keeps it, whatever
    its type tag. *)
Theorem classify_ast_idempotent (tree : ASTNode) :
  _classify_ast (_classify_ast tree) = _classify_ast tree
  ∧ (∀ i n, subnodes tree !! i = Some n → classification n = FUNCTION →
       ∃ n', subnodes (_classify_ast tree) !! i = Some n'
             ∧ classification n' = FUNCTION).
Proof.
  split.
  - induction tree as [t c l ch IH] using ASTNode_ind'.
    cbn [_classify_ast]. f_equal.
    + by destruct (bool_decide (t ∈ FUNCTION_AST_TYPES)).
    + induction IH as [|x r Hx _ IHr]; [done|]. cbn [map]. by rewrite Hx, IHr.
  - intros i n Hi Hc. exists (_classify_ast n). split.
    + rewrite classify_subnodes.
      change (map _classify_ast (subnodes tree)) with (_classify_ast <$> subnodes tree).
      by rewrite list_lookup_fmap, Hi.
    + rewrite classify_classification, Hc. by case_bool_decide.
Qed.

(** ** More on strings *)




Lemma lower_ascii_idemp a : Str.lower_ascii (Str.lower_ascii a) = Str.lower_ascii a.
Proof. destruct a as [[] [] [] [] [] [] [] []]; vm_compute; reflexivity. Qed.

Lemma lower_idemp s : Str.lower (Str.lower s) = Str.lower s.
Proof. induction s as [|c s IH]; simpl; [done|]. by rewrite lower_ascii_idemp, IH. Qed.




(** ** More on the settings *)

Lemma Dict_set_elem_of {V} k (v : V) d x :
  x ∈ Dict.set k v d → x = (k, v) ∨ x ∈ d.
Proof.
  induction d as [|[k0 v0] d IH]; simpl.
  - intros ->%list_elem_of_singleton. by left.
  - destruct (String.eqb k k0).
    + intros [->|?]%elem_of_cons; [by left|right; by right].
    + intros [->|H]%elem_of_cons; [right; left|].
      destruct (IH H) as [?|?]; [by left|right; by right].
Qed.

Lemma Dict_set_length {V} k (v : V) d :
  (length (Dict.set k v d) ≤ S (length d))%nat.
Proof.
  induction d as [|[k0 v0] d IH]; simpl; [lia|].
  destruct (String.eqb k k0); simpl; lia.
Qed.

Lemma Dict_set_fresh {V} k (v : V) d :
  k ∉ Dict.keys d → Dict.set k v d = (d ++ [(k, v)])%list.
Proof.
  unfold Dict.keys. induction d as [|[k0 v0] d IH]; simpl; [done|].
  intros [Hne Hd]%not_elem_of_cons.
  destruct (String.eqb k k0) eqn:E.
  - apply String.eqb_eq in E. done.
  - by rewrite IH.
Qed.

Section SettingsMore.

Variable self : VyperCompiler.
Variable version : Version.
Variable source_paths : list Path.

Local Abbreviation key_of := (settings_key_of self version source_paths).
Local Abbreviation groups := (group_sources self version source_paths).
Local Abbreviation step := (group_source self version source_paths).
Local Abbreviation opt_of := (resolved_optimization self version source_paths).
Local Abbreviation evm_of_source := (resolved_evm_version version source_paths).

Lemma group_fold_nonempty srcs acc :
  Forall (fun g => g.2 ≠ ∅) acc →
  Forall (fun g : string * gset string => g.2 ≠ ∅) (fold_left step srcs acc)
  ∧ (length (fold_left step srcs acc) ≤ length acc + length srcs)%nat.
Proof.
  revert acc. induction srcs as [|p srcs IH]; simpl; intros acc Hacc.
  - split; [done|lia].
  - assert (Hstep : Forall (fun g : string * gset string => g.2 ≠ ∅) (step acc p)).
    { apply Forall_forall. intros x Hx. unfold group_source in Hx.
      destruct (Dict.get _ acc) as [g|];
        apply Dict_set_elem_of in Hx as [->|Hx]; simpl;
        try (by apply (proj1 (Forall_forall _ _) Hacc)).
      - intros He. assert (Hin : source_id_of p ∈ g ∪ {[source_id_of p]}).
        { apply elem_of_union. right. by apply elem_of_singleton. }
        rewrite He in Hin. by apply not_elem_of_empty in Hin.
      - intros He. assert (Hin : source_id_of p ∈ ({[source_id_of p]} : gset string)).
        { by apply elem_of_singleton. }
        rewrite He in Hin. by apply not_elem_of_empty in Hin. }
    destruct (IH _ Hstep) as [Hf Hl]. split; [done|].
    assert (Hs : (length (step acc p) ≤ S (length acc))%nat).
    { unfold group_source. destruct (Dict.get _ acc); apply Dict_set_length. }
    lia.
Qed.


(** X15. The grouping loop of [get_settings] makes no empty group and no
    more groups than there are sources; without sources there is no
    group. *)
Theorem groups_are_nonempty :
  Forall (fun g : string * gset string => g.2 ≠ ∅) groups
  ∧ (length groups ≤ length source_paths)%nat
  ∧ (source_paths = [] → get_settings self version source_paths = inr []).
Proof.
  destruct (group_fold_nonempty source_paths [] (Forall_nil_2 _)) as [Hne Hl].
  split_and!; [done|unfold group_sources; simpl in Hl; lia|].
  unfold get_settings, group_sources. by intros ->.
Qed.





Lemma version_settings_of_inr l acc settings :
  NoDup (Dict.keys acc ++ Dict.keys l) →
  version_settings_of self l acc = inr settings →
  ∃ payloads,
    settings = (acc ++ payloads)%list
    ∧ Forall2 (fun g s => s.1 = g.1 ∧ settings_of_key self g.1 g.2 = inr s.2)
              l payloads.
Proof.
  revert acc. induction l as [|[k sel] rest IH]; simpl; intros acc Hnd H.
  - injection H as <-. exists []. by rewrite app_nil_r.
  - destruct (settings_of_key self k sel) as [e|payload] eqn:Hp; [done|].
    assert (Hk : k ∉ Dict.keys acc).
    { apply NoDup_app in Hnd as (_ & Hd & _). intros Hin. apply (Hd k Hin). left. }
    rewrite (Dict_set_fresh _ _ _ Hk) in H.
    destruct (IH (acc ++ [(k, payload)])%list) as (payloads & -> & Hall); [|done|].
    { unfold Dict.keys in *. rewrite map_app. simpl.
      rewrite <- app_assoc. simpl. done. }
    exists ((k, payload) :: payloads). split; [by rewrite <- app_assoc|].
    by constructor.
Qed.

(** X13. When [get_settings] returns, its result has one payload per
    group, under the same key and in the same order as the grouping loop
    made the groups; the output selection of a payload is what
    [_get_selection_dictionary] gives for the sources of the group, and the
    search paths are the site packages followed by ["."]. *)
Theorem get_settings_payloads settings :
  get_settings self version source_paths = inr settings →
  Forall2 (fun g s =>
             s.1 = g.1
             ∧ outputSelection s.2 = Some (_get_selection_dictionary self g.2)
             ∧ search_paths s.2 = (getsitepackages ++ ["."])%list)
          groups settings.
Proof.
  unfold get_settings. intros H.
  destruct (version_settings_of_inr groups [] settings) as (payloads & -> & Hall);
    [|done|].
  { simpl. apply groups_keys. }
  simpl. eapply Forall2_impl; [exact Hall|].
  intros [k sel] [k' payload] [Hk Hp]. simpl in *. split; [done|].
  unfold settings_of_key in Hp.
  destruct (Str.split "%" k) as [|o [|e [|x rest]]]; try done.
  injection Hp as <-. done.
Qed.


End SettingsMore.

(** ** Files, selection and sources together *)







(** X19. The runtime version of a source comes from its pragma whenever it
    has one, even an empty one; otherwise from the configuration when that
    is set and not empty; otherwise from the table of defaults by the base
    version of the compiler, and is absent when the table has no entry. *)
Theorem evm_version_precedence version source_paths source_id :
  (∀ pragma, evm_version_map source_paths !! source_id = Some pragma →
     resolved_evm_version version source_paths source_id = Some pragma)
  ∧ (evm_version_map source_paths !! source_id = None →
     (∀ configured, config_evm_version = Some configured → configured ≠ "" →
        resolved_evm_version version source_paths source_id = Some configured)
     ∧ (config_evm_version = None ∨ config_evm_version = Some "" →
        resolved_evm_version version source_paths source_id
        = EVM_VERSION_DEFAULT !! base_version version)).
Proof.
  unfold resolved_evm_version, get_evm_version. split.
  - by intros pragma ->.
  - intros ->. split.
    + intros configured -> Hne. by destruct configured.
    + by intros [-> | ->].
Qed.

End Driver.

(** * A sample project

    A project at [/proj] with a contract, a file that does not compile,
    a contract whose name contains "interfaces", and interface files in
    [interfaces/] and in [contracts/interfaces/]. The compiler stand-in
    rejects any request that holds [broken.vy] and otherwise answers with
    one contract for [token.vy]. *)

Module Sample.

Definition proj : Path := mkPath Slash ["proj"].

Definition nl : string := String "010" "".

Definition token_text : string :=
  "# @version 0.3.7" +:+ nl +:+ "@external" +:+ nl +:+ "def pay():" +:+ nl
  +:+ "    assert msg.value > 0  # dev: no value  " +:+ nl +:+ "    pass".

Definition read_text (p : Path) : option string :=
  if decide (p = proj // "token.vy") then Some token_text
  else if decide (p = proj // "broken.vy") then Some "def ("
  else if decide (p = proj // "token_interfaces.vy") then Some "# registry"
  else if decide (p = proj // "contracts/interfaces/IFace.vy") then Some "# interface"
  else if decide (p = proj // "interfaces/IFace.vy") then Some "# interface"
  else None.

Definition get_relative_path (p base : Path) : Path :=
  mkPath Relative (drop (length (parts base)) (parts p)).

(** The last ["dev:"] of a line that has text after it, to the end of the
    line. *)
Fixpoint DEV_MSG_search (line : string) : option string :=
  match line with
  | EmptyString => None
  | String c rest =>
      match DEV_MSG_search rest with
      | Some group1 => Some group1
      | None =>
          if Str.startswith "dev:" line && (4 <? String.length line)%nat
          then Some line else None
      end
  end.

(** Lines numbered from 1. *)
Definition Content_validate (text : string) : gmap Z string :=
  list_to_map (imap (fun i line => (Z.of_nat (S i), line)) (Str.split "010" text)).

(** One entry per field between semicolons, numbered in [start]. *)
Definition SourceMap_parse (compressed : string) : list SourceMapItem :=
  imap (fun i field => mkSourceMapItem (Some (Z.of_nat i)) None None field)
       (Str.split ";" compressed).

Definition FUNCTION_AST_TYPES : list string := ["FunctionDef"; "Name"; "arguments"].

Definition token_ast : ASTNode :=
  mkASTNode "Module" UNCLASSIFIED (1, 0, 5, 8)%Z
    [mkASTNode "FunctionDef" UNCLASSIFIED (3, 0, 5, 8)%Z
       [mkASTNode "arguments" UNCLASSIFIED (3, 7, 3, 9)%Z [];
        mkASTNode "Assert" UNCLASSIFIED (4, 4, 4, 24)%Z
          [mkASTNode "Name" UNCLASSIFIED (4, 11, 4, 14)%Z []]]].

Definition token_source_map : string := "0:1:0:-;5:2:0:i;9:3:0:o".

Definition token_output : OutputJson :=
  mkOutputJson
    (Some (mkEvmJson
             (Some (mkRuntimeBytecodeJson (Some "0x6003") (Some "PUSH1 0x03")
                                          (Some token_source_map)))
             (Some "0x61")))
    (Some (JList [])) None None.

Definition token_result : CompileResult :=
  mkCompileResult [("token.vy", [("token", token_output)])]
                  {[ "token.vy" := mkSourceOutJson (Some token_ast) ]}.

Definition syntax_error : string := "SyntaxException: invalid syntax".

Definition vvm_compile_standard (req : InputJson) (v : Version) (base : Path)
  : Exn + CompileResult :=
  if bool_decide ("broken.vy" ∈ dom (sources req))
  then inl (VyperError syntax_error)
  else inr token_result.

Definition base : VyperCompiler :=
  BaseVyperCompiler proj read_text [] [] (fun _ => ∅).

(** The same project with one dependency that has one contract type. *)
Definition with_dependency : VyperCompiler :=
  BaseVyperCompiler proj read_text []
    [("exampledep", Some [("Dependency", [JObj [("type", JStr "function")]])]);
     ("emptydep", None)]
    (fun _ => ∅).

(** A version whose [_get_pcmap] shows the source map it was given: one
    entry per item, under its index, with the item's text. *)
Definition recording_pcmap (v : Version) (ast : option ASTNode)
    (src_map : list SourceMapItem) (opcodes : list string)
    (bytecode : RuntimeBytecodeJson) : gmap Z PCMapItem :=
  list_to_map
    (imap (fun i item => (Z.of_nat i, mkPCMapItem None (Some (jump_code item))))
          src_map).

Definition recorder : VyperCompiler :=
  mkVyperCompiler (get_import_remapping base) (_get_sources_dictionary base)
                  (_get_selection_dictionary base) recording_pcmap
                  (_get_default_optimization base).

Definition v037 : Version := mkVersion "0.3.7".

Definition compile_output :=
  compile_output proj FUNCTION_AST_TYPES DEV_MSG_search
                           get_relative_path SourceMap_parse.

Definition compile :=
  compile proj FUNCTION_AST_TYPES DEV_MSG_search get_relative_path
                    Content_validate SourceMap_parse vvm_compile_standard.

Definition token_settings : SettingsSet :=
  mkSettingsSet (OptBool true) (Some {[ "token.vy" := ["*"] ]}) ["."] None.

Definition broken_settings : SettingsSet :=
  mkSettingsSet (OptBool true) (Some {[ "broken.vy" := ["*"] ]}) ["."] (Some "paris").


Definition no_artifact : ContractType :=
  mkContractType None "" "" None None None None None None None ∅.

(** The artifact of [token.vy] under the recording version. *)
Definition token_artifact : ContractType :=
  match compile_output recorder v037 token_result "token.vy"
                       (Content_validate token_text) "token" token_output with
  | inr contract_type => contract_type
  | inl _ => no_artifact
  end.

(** Pragma tables: [token.vy] has an explicit falsy optimization. *)
Definition get_optimization_pragma_map (paths : list Path) (base : Path)
    (default : Optimization) : gmap string Optimization :=
  {[ "token.vy" := OptBool false ]}.

Definition get_evm_version_pragma_map (paths : list Path) (base : Path)
  : gmap string string :=
  {[ "broken.vy" := "Paris" ]}.

Definition source_paths : list Path :=
  [Pathlib.of_string "token.vy"; Pathlib.of_string "broken.vy";
   Pathlib.of_string "token_interfaces.vy"].

Definition get_settings :=
  get_settings proj proj None ∅ get_optimization_pragma_map
                         get_evm_version_pragma_map get_relative_path ["/site"]
                         base v037 source_paths.

(** Further sample data. *)

Definition empty_settings : SettingsSet :=
  mkSettingsSet (OptBool true) None ["."] None.


(** A request that holds [token.vy] under an absolute-looking key only. *)
Definition prefixed_src_dict : gmap string SourceJson :=
  {[ "/token.vy" := mkSourceJson token_text ]}.

Definition compile_contracts :=
  compile_contracts proj FUNCTION_AST_TYPES DEV_MSG_search get_relative_path
                    Content_validate SourceMap_parse.

(** The settings that [get_settings] returns on the sample. *)
Definition resolved_settings : list (string * SettingsSet) :=
  match get_settings with
  | inr settings => settings
  | inl _ => []
  end.

End Sample.

(** ** The driver on the sample project *)

(** Settles a decidable closed proposition by evaluating its decision. *)
Ltac by_decide :=
  match goal with
  | |- ?P => apply (bool_decide_unpack P); vm_compute; exact I
  end.

Example sample_get_settings_groups :
  match Sample.get_settings with
  | inr settings =>
      map (fun e => (e.1, map_to_list <$> outputSelection e.2,
                     optimize e.2, evmVersion e.2)) settings
      = [("true%none", Some [("token.vy", ["*"])], OptBool true, None);
         ("true%paris", Some [("broken.vy", ["*"])], OptBool true, Some "paris")]
  | inl _ => False
  end.
Proof. vm_compute. reflexivity. Qed.

Example sample_compile_trace :
  let trace := Sample.compile Sample.recorder Sample.v037
                 [("true%none", Sample.token_settings);
                  ("true%paris", Sample.broken_settings)] in
  yielded trace = [(Sample.token_artifact, "true%none")]
  ∧ length (requests trace) = 2
  ∧ raised trace
    = Some (mkRaised (VyperCompileError (VyperError Sample.syntax_error))
                     (Some (VyperError Sample.syntax_error))).
Proof. vm_compute. done. Qed.

Example sample_dev_messages :
  map_to_list (dev_messages Sample.token_artifact) = [(4%Z, "dev: no value")].
Proof. vm_compute. reflexivity. Qed.

Example sample_classified_ast :
  (fun tree => map (fun n => (ast_type n, classification n)) (subnodes tree))
    <$> ct_ast Sample.token_artifact
  = Some [("Module", UNCLASSIFIED); ("FunctionDef", FUNCTION);
          ("arguments", FUNCTION); ("Assert", UNCLASSIFIED); ("Name", FUNCTION)].
Proof. vm_compute. reflexivity. Qed.

(** The request of a project without dependencies has no ["interfaces"]
    key; with a dependency that has a contract type it has one. *)
Example sample_request_interfaces :
  map interfaces
      (requests (Sample.compile Sample.base Sample.v037
                   [("true%none", Sample.token_settings)])) = [None]
  ∧ map (fun req => map_to_list <$> interfaces req)
        (requests (Sample.compile Sample.with_dependency Sample.v037
                     [("true%none", Sample.token_settings)]))
    = [Some [("exampledep/Dependency.json", mkInterfaceJson [JObj [("type", JStr "function")]])]].
Proof. vm_compute. done. Qed.

(** C1 on the sample: the three-entry source map of [token.vy] reaches
    [_get_pcmap] as its last two entries. *)
Lemma source_map_drops_first_entry_witness :
  Sample.compile_output Sample.recorder Sample.v037 Sample.token_result "token.vy"
    (Sample.Content_validate Sample.token_text) "token" Sample.token_output
  = inr Sample.token_artifact
  ∧ sourceMap (runtime_bytecode_of Sample.token_output) = Some Sample.token_source_map
  ∧ ∃ src_map,
      pcmap Sample.token_artifact
      = Some (Sample.recording_pcmap Sample.v037 (ct_ast Sample.token_artifact)
                src_map (opcodes_of Sample.token_output)
                (runtime_bytecode_of Sample.token_output))
      ∧ sourcemap Sample.token_artifact = Some Sample.token_source_map
      ∧ src_map = drop 1 (Sample.SourceMap_parse Sample.token_source_map)
      ∧ (∀ first rest,
           Sample.SourceMap_parse Sample.token_source_map = first :: rest →
           src_map = rest)
      ∧ (∀ i, src_map !! i = Sample.SourceMap_parse Sample.token_source_map !! S i)
      ∧ length src_map = length (Sample.SourceMap_parse Sample.token_source_map) - 1.
Proof.
  split; [vm_compute; reflexivity|]. split; [reflexivity|].
  apply (source_map_drops_first_entry Sample.proj Sample.FUNCTION_AST_TYPES
           Sample.DEV_MSG_search Sample.get_relative_path Sample.SourceMap_parse
           Sample.recorder Sample.v037 Sample.token_result "token.vy"
           (Sample.Content_validate Sample.token_text) "token" Sample.token_output
           Sample.token_artifact Sample.token_source_map).
  - vm_compute. reflexivity.
  - reflexivity.
Defined.


(** C3 on the sample: the group of [broken.vy] fails after the group of
    [token.vy] has been compiled. *)
Lemma compiler_error_aborts_group_witness :
  let trace := Sample.compile Sample.base Sample.v037
                 ([("true%none", Sample.token_settings)]
                  ++ ("true%paris", Sample.broken_settings) :: []) in
  let request := make_input_json Sample.base Sample.broken_settings
                   {[ "broken.vy" := mkSourceJson "def (" ]} in
  let before := Sample.compile Sample.base Sample.v037
                  [("true%none", Sample.token_settings)] in
  raised trace = Some (mkRaised (VyperCompileError (VyperError Sample.syntax_error))
                                (Some (VyperError Sample.syntax_error)))
  ∧ requests trace = (requests before ++ [request])%list
  ∧ (request ∉ requests before)
  ∧ yielded trace = yielded before
  ∧ (∀ contract_type, (contract_type, "true%paris") ∉ yielded trace).
Proof.
  apply (compiler_error_aborts_group Sample.proj Sample.FUNCTION_AST_TYPES
           Sample.DEV_MSG_search Sample.get_relative_path Sample.Content_validate
           Sample.SourceMap_parse Sample.vvm_compile_standard Sample.base Sample.v037
           [("true%none", Sample.token_settings)] "true%paris" Sample.broken_settings []
           {[ "broken.vy" := ["*"] ]} {[ "broken.vy" := mkSourceJson "def (" ]}
           Sample.syntax_error).
  - by_decide.
  - vm_compute. reflexivity.
  - reflexivity.
  - by_decide.
  - vm_compute. reflexivity.
  - vm_compute. reflexivity.
Defined.

(** C9 on the sample: [token.vy] has the pragma value [False] and lands
    under ["true%none"]. *)
Lemma falsy_pragma_takes_default_witness :
  resolved_optimization Sample.proj Sample.get_optimization_pragma_map Sample.base
    Sample.v037 Sample.source_paths "token.vy"
  = _get_default_optimization Sample.base Sample.v037
  ∧ (_get_default_optimization Sample.base Sample.v037 = OptBool true →
     settings_key_of Sample.proj None ∅ Sample.get_optimization_pragma_map
       Sample.get_evm_version_pragma_map Sample.base Sample.v037 Sample.source_paths
       "token.vy"
     = "true%" +:+ Str.lower (optional_str
                                (resolved_evm_version Sample.proj None ∅
                                   Sample.get_evm_version_pragma_map Sample.v037
                                   Sample.source_paths "token.vy"))
     ∧ head (Str.split "%"
               (settings_key_of Sample.proj None ∅ Sample.get_optimization_pragma_map
                  Sample.get_evm_version_pragma_map Sample.base Sample.v037
                  Sample.source_paths "token.vy")) = Some "true"
     ∧ Str.startswith "false"
         (settings_key_of Sample.proj None ∅ Sample.get_optimization_pragma_map
            Sample.get_evm_version_pragma_map Sample.base Sample.v037
            Sample.source_paths "token.vy") = false
     ∧ ∀ settings payload,
         Sample.get_settings = inr settings →
         Dict.get (settings_key_of Sample.proj None ∅ Sample.get_optimization_pragma_map
                     Sample.get_evm_version_pragma_map Sample.base Sample.v037
                     Sample.source_paths "token.vy") settings = Some payload →
         optimize payload = OptBool true).
Proof.
  apply (falsy_pragma_takes_default Sample.proj Sample.proj None ∅
           Sample.get_optimization_pragma_map Sample.get_evm_version_pragma_map
           Sample.get_relative_path ["/site"] Sample.base Sample.v037
           Sample.source_paths "token.vy").
  intros o H. vm_compute in H. injection H as <-. by left.
Defined.



(** ** Further properties on the sample project *)

(** X2 on the sample: where the artifact of [token.vy] comes from. *)
Lemma compile_yielded_inv_witness :
  ∃ ss sel src_dict result source_id items sid name output,
    ("true%none", ss) ∈ [("true%none", Sample.token_settings)]
    ∧ outputSelection ss = Some sel
    ∧ _get_sources_dictionary Sample.recorder (dom sel) = inr src_dict
    ∧ Sample.vvm_compile_standard (make_input_json Sample.recorder ss src_dict)
        Sample.v037 Sample.proj = inr result
    ∧ (source_id, items) ∈ contracts result
    ∧ reconcile_source_id src_dict source_id = Some sid
    ∧ (name, output) ∈ items
    ∧ Sample.compile_output Sample.recorder Sample.v037 result sid
        (Sample.Content_validate (default "" (content <$> src_dict !! sid)))
        name output
      = inr Sample.token_artifact.
Proof.
  apply (compile_yielded_inv Sample.proj Sample.FUNCTION_AST_TYPES
           Sample.DEV_MSG_search Sample.get_relative_path Sample.Content_validate
           Sample.SourceMap_parse Sample.vvm_compile_standard Sample.recorder
           Sample.v037 [("true%none", Sample.token_settings)]
           (Sample.token_artifact, "true%none")).
  vm_compute. left.
Defined.

(** X3 on the sample: after the failure on [broken.vy] the group of
    [token.vy] is not compiled. *)
Lemma compile_stops_at_first_error_witness :
  Sample.compile Sample.base Sample.v037
    ([("true%paris", Sample.broken_settings)] ++ [("true%none", Sample.token_settings)])
  = Sample.compile Sample.base Sample.v037 [("true%paris", Sample.broken_settings)].
Proof.
  eapply (compile_stops_at_first_error Sample.proj Sample.FUNCTION_AST_TYPES
            Sample.DEV_MSG_search Sample.get_relative_path Sample.Content_validate
            Sample.SourceMap_parse Sample.vvm_compile_standard Sample.base
            Sample.v037).
  vm_compute. reflexivity.
Defined.

(** X5 on the sample: an entry without output selection changes nothing. *)
Lemma empty_selection_group_is_skipped_witness :
  Sample.compile Sample.base Sample.v037
    ([] ++ ("false%none", Sample.empty_settings) :: [("true%none", Sample.token_settings)])
  = Sample.compile Sample.base Sample.v037 ([] ++ [("true%none", Sample.token_settings)]).
Proof.
  apply (empty_selection_group_is_skipped Sample.proj Sample.FUNCTION_AST_TYPES
           Sample.DEV_MSG_search Sample.get_relative_path Sample.Content_validate
           Sample.SourceMap_parse Sample.vvm_compile_standard Sample.base
           Sample.v037 [] "false%none" Sample.empty_settings
           [("true%none", Sample.token_settings)]).
  left. reflexivity.
Defined.

(** X7 on the sample: the request holds [/token.vy], the compiler answers
    for [token.vy] and lists the source without the prefix. *)
Lemma missing_result_source_raises_witness :
  Sample.compile_contracts Sample.base Sample.v037 "true%none"
    Sample.prefixed_src_dict Sample.token_result
    [("token.vy", [("token", Sample.token_output)])]
  = mkTrace [] [] (Some (raise (KeyError "/token.vy"))).
Proof.
  apply (missing_result_source_raises Sample.proj Sample.FUNCTION_AST_TYPES
           Sample.DEV_MSG_search Sample.get_relative_path Sample.Content_validate
           Sample.SourceMap_parse Sample.base Sample.v037 "true%none"
           Sample.prefixed_src_dict Sample.token_result "token.vy" "/token.vy"
           "token" Sample.token_output [] []).
  - vm_compute. reflexivity.
  - vm_compute. reflexivity.
Defined.

(** X8 on the sample: the relative identifier [token.vy] is kept. *)
Lemma artifact_source_id_witness :
  (Pathlib.is_absolute (Pathlib.of_string "token.vy") = false →
   sourceId Sample.token_artifact = "token.vy")
  ∧ (Pathlib.is_absolute (Pathlib.of_string "token.vy") = true →
     sourceId Sample.token_artifact
     = Pathlib.to_string
         (Sample.get_relative_path (Pathlib.of_string "token.vy") Sample.proj))
  ∧ (∀ s, "token.vy" = sep +:+ s →
       sourceId Sample.token_artifact
       = Pathlib.to_string
           (Sample.get_relative_path (Pathlib.of_string "token.vy") Sample.proj)).
Proof.
  apply (artifact_source_id Sample.proj Sample.FUNCTION_AST_TYPES
           Sample.DEV_MSG_search Sample.get_relative_path Sample.SourceMap_parse
           Sample.recorder Sample.v037 Sample.token_result "token.vy"
           (Sample.Content_validate Sample.token_text) "token" Sample.token_output
           Sample.token_artifact).
  vm_compute. reflexivity.
Defined.

(** X9 on the sample: the prefix retry finds [/token.vy]. *)
Lemma reconciled_id_is_a_source_key_witness :
  is_Some (Sample.prefixed_src_dict !! "/token.vy")
  ∧ ("/token.vy" = "token.vy"
     ∨ (("token.vy" ∉ dom Sample.prefixed_src_dict)
        ∧ "/token.vy" = sep +:+ "token.vy")).
Proof.
  apply (reconciled_id_is_a_source_key Sample.prefixed_src_dict "token.vy" "/token.vy").
  vm_compute. reflexivity.
Defined.

(** X13 on the sample: two groups, two payloads. *)
Lemma get_settings_payloads_witness :
  Forall2 (fun g s =>
             s.1 = g.1
             ∧ outputSelection s.2 = Some (_get_selection_dictionary Sample.base g.2)
             ∧ search_paths s.2 = (["/site"] ++ ["."])%list)
          (group_sources Sample.proj Sample.proj None ∅
             Sample.get_optimization_pragma_map Sample.get_evm_version_pragma_map
             Sample.get_relative_path Sample.base Sample.v037 Sample.source_paths)
          Sample.resolved_settings.
Proof.
  apply (get_settings_payloads Sample.proj Sample.proj None ∅
           Sample.get_optimization_pragma_map Sample.get_evm_version_pragma_map
           Sample.get_relative_path ["/site"] Sample.base Sample.v037
           Sample.source_paths Sample.resolved_settings).
  vm_compute. reflexivity.
Defined.



